(** * Amazon price tracker API: a shallow embedding of [main.py]

    The development follows the layout of the source file:
    - text helpers ([str.strip], [str.replace], [float]) and the fragment of
      Python's [re] that the price pattern uses;
    - the page extractor [scrape_amazon_price];
    - the observation store ([save_price_to_db], [get_price_history_from_db]);
    - the request handlers.

    Modelling conventions.
    - A Python [str] is a [string]; its characters are the code points below
      256.
    - A Python [float] is a double: the rational it denotes, or infinity
      (type [double]).  Reading a decimal rounds it to the nearest double,
      ties to even, and gives infinity beyond the range.
    - Time is a number of whole seconds since 1970 (type [Z]); this is the
      resolution of SQLite's [CURRENT_TIMESTAMP].
    - Effects (HTTP requests, the database file, the clock, raised
      exceptions) are threaded through a state-and-exception monad [M]. *)

From Stdlib Require Import List String Ascii Bool ZArith QArith Lia.
From Stdlib Require Import Permutation Sorted DecimalString DecimalPos DecimalZ.
Import ListNotations.

Local Open Scope string_scope.
Local Open Scope Z_scope.

(** ** Doubles

    The values a Python [float] takes in this program: no negative number
    and no NaN is ever produced. *)

Module Double.

Inductive double : Type :=
| Finite (q : Q)
| Infinity.

(** The integer nearest to [n / d], the even one of two that are equally
    near ([0 <= n], [0 < d]). *)
Definition round_half_even (n d : Z) : Z :=
  let q := n / d in
  let r := n mod d in
  match 2 * r ?= d with
  | Lt => q
  | Gt => q + 1
  | Eq => if Z.even q then q else q + 1
  end.

(** The integer part of the binary logarithm of [n / d] ([0 < n], [0 < d]). *)
Definition floor_log2 (n d : Z) : Z :=
  let k := Z.log2 n - Z.log2 d in
  if (if 0 <=? k then d * 2 ^ k <=? n else d <=? n * 2 ^ (- k)) then k else k - 1.

(** The double nearest to [n / d], for [0 <= n]: a significand [m] of at
    most 53 bits and an exponent [e] of at least -1074, with [m * 2 ^ e]
    nearest to [n / d], ties to even; infinity from [2 ^ 1024] on.  This is
    what [float(s)] returns for a decimal [s], and what a decimal literal of
    the source denotes. *)
Definition nearest (n : Z) (d : positive) : double :=
  if n <=? 0 then Finite 0
  else
    let e := Z.max (floor_log2 n (Zpos d) - 52) (-1074) in
    if 0 <=? e then
      let m := round_half_even n (Zpos d * 2 ^ e) in
      if 2 ^ 1024 <=? m * 2 ^ e then Infinity else Finite (m * 2 ^ e # 1)
    else
      let m := round_half_even (n * 2 ^ (- e)) (Zpos d) in
      Finite (Qred (m # Z.to_pos (2 ^ (- e)))).

(** The double that a decimal such as [99.99] denotes. *)
Definition of_Q (q : Q) : double := nearest (Qnum q) (Qden q).

(** [x <= y] *)
Definition le (x y : double) : Prop :=
  match x, y with
  | Finite a, Finite b => (a <= b)%Q
  | _, Infinity => True
  | Infinity, Finite _ => False
  end.

(** [x < y] *)
Definition ltb (x y : double) : bool :=
  match x, y with
  | Finite a, Finite b => negb (Qle_bool b a)
  | Finite _, Infinity => true
  | Infinity, _ => false
  end.

Definition nonneg (x : double) : Prop := le (Finite 0) x.

End Double.

Abbreviation double := Double.double.

(** ** Text helpers *)

Module Text.

(** Characters for which Python's [str.isspace] holds, below 256. *)
Definition isspace (c : ascii) : bool :=
  let n := nat_of_ascii c in
  ((9 <=? n) && (n <=? 13) || (28 <=? n) && (n <=? 32)
   || (n =? 133) || (n =? 160))%nat.

Definition is_digit (c : ascii) : bool :=
  let n := nat_of_ascii c in ((48 <=? n) && (n <=? 57))%nat.

Definition is_comma (c : ascii) : bool := Ascii.eqb c ",".
Definition is_dot (c : ascii) : bool := Ascii.eqb c ".".
Definition is_dollar (c : ascii) : bool := Ascii.eqb c "$".

(** [0-9,] *)
Definition is_digit_or_comma (c : ascii) : bool := is_digit c || is_comma c.

Fixpoint lstrip (s : string) : string :=
  match s with
  | String c s' => if isspace c then lstrip s' else s
  | EmptyString => EmptyString
  end.

(** Drops the white space at the end of [s]. *)
Fixpoint rstrip (s : string) : string :=
  match s with
  | String c s' =>
      match rstrip s' with
      | EmptyString => if isspace c then EmptyString else String c EmptyString
      | t => String c t
      end
  | EmptyString => EmptyString
  end.

(** [s.strip()] *)
Definition strip (s : string) : string := rstrip (lstrip s).

(** [s.replace(',', '')] *)
Fixpoint remove_commas (s : string) : string :=
  match s with
  | String c s' => if is_comma c then remove_commas s' else String c (remove_commas s')
  | EmptyString => EmptyString
  end.

(** Longest prefix of characters satisfying [p], and the rest. *)
Fixpoint span (p : ascii -> bool) (s : string) : string * string :=
  match s with
  | String c s' =>
      if p c then let (a, b) := span p s' in (String c a, b) else (EmptyString, s)
  | EmptyString => (EmptyString, EmptyString)
  end.

Fixpoint drop_while (p : ascii -> bool) (s : string) : string :=
  match s with
  | String c s' => if p c then drop_while p s' else s
  | EmptyString => EmptyString
  end.

Fixpoint take (n : nat) (s : string) : string :=
  match n, s with
  | S n', String c s' => String c (take n' s')
  | _, _ => EmptyString
  end.

Fixpoint forallb (p : ascii -> bool) (s : string) : bool :=
  match s with
  | String c s' => p c && forallb p s'
  | EmptyString => true
  end.

Fixpoint existsb (p : ascii -> bool) (s : string) : bool :=
  match s with
  | String c s' => p c || existsb p s'
  | EmptyString => false
  end.

Definition is_empty (s : string) : bool :=
  match s with EmptyString => true | _ => false end.

(** Value of a string of decimal digits, read from the left with
    accumulator [acc]. *)
Fixpoint digits_value (acc : Z) (s : string) : Z :=
  match s with
  | String c s' => digits_value (10 * acc + (Z.of_nat (nat_of_ascii c) - 48)) s'
  | EmptyString => acc
  end.

(** [float(s)] on the literals that can reach it in this program: digits
    with at most one decimal point.  Python raises [ValueError] (here
    [None]) when such a literal carries no digit at all, as in [''] and
    ['.'], and otherwise returns the double nearest to the decimal, which
    is infinity for a decimal beyond the range of doubles.  Other spellings
    that Python's [float] accepts (signs, exponents, white space,
    underscores, [inf], [nan]) are never produced by the price pattern
    followed by the removal of commas (lemma [price_literal_shape]); the
    model rejects them. *)
Definition float (s : string) : option double :=
  let (ip, rest) := span is_digit s in
  match rest with
  | EmptyString =>
      if is_empty ip then None else Some (Double.nearest (digits_value 0 ip) 1)
  | String c fp =>
      if is_dot c then
        let (fd, rest') := span is_digit fp in
        if is_empty rest' && negb (is_empty ip && is_empty fd) then
          Some (Double.nearest (digits_value 0 (ip ++ fd))
                               (Z.to_pos (10 ^ Z.of_nat (String.length fd))))
        else None
      else None
  end.

End Text.

(** ** The fragment of Python's [re] used by the price pattern

    Backtracking matcher in continuation-passing style: every construct
    tries its alternatives in Python's order (greedy first) and the first
    complete match wins.  One capture group is supported. *)

Module Re.

Inductive regex : Type :=
| Class (p : ascii -> bool)      (* [...]   one character of a set *)
| Star (p : ascii -> bool)       (* [...]*  greedy                  *)
| Plus (p : ascii -> bool)       (* [...]+  greedy                  *)
| Opt (r : regex)                (* r?      greedy                  *)
| Cat (r1 r2 : regex)            (* r1 r2                           *)
| Group (r : regex).             (* ( r )   capture group 1         *)

Section Matcher.
Context {R : Type}.

(** Greedy repetition of a character class: the longest run first, then
    shorter ones while the continuation fails. *)
Fixpoint star (p : ascii -> bool) (s : string) (k : string -> option R) : option R :=
  match s with
  | String c s' =>
      if p c then
        match star p s' k with
        | Some r => Some r
        | None => k s
        end
      else k s
  | EmptyString => k s
  end.

(** [rmatch r s g k]: match [r] at the start of [s]; [g] is the text
    captured so far; [k] receives the unread input and the capture. *)
Fixpoint rmatch (r : regex) (s : string) (g : option string)
         (k : string -> option string -> option R) : option R :=
  match r with
  | Class p =>
      match s with
      | String c s' => if p c then k s' g else None
      | EmptyString => None
      end
  | Star p => star p s (fun s' => k s' g)
  | Plus p =>
      match s with
      | String c s' => if p c then star p s' (fun s'' => k s'' g) else None
      | EmptyString => None
      end
  | Opt r1 =>
      match rmatch r1 s g k with
      | Some x => Some x
      | None => k s g
      end
  | Cat r1 r2 => rmatch r1 s g (fun s' g' => rmatch r2 s' g' k)
  | Group r1 =>
      rmatch r1 s g
        (fun s' _ => k s' (Some (Text.take (String.length s - String.length s') s)))
  end.
End Matcher.

(** [re.match(r, s)]: the capture of the first complete match at the start
    of [s] ([Some None] when the group took no part). *)
Definition match_here (r : regex) (s : string) : option (option string) :=
  rmatch r s None (fun _ g => Some g).

(** [re.search(r, s)]: the leftmost position at which [r] matches. *)
Fixpoint search (r : regex) (s : string) : option (option string) :=
  match match_here r s with
  | Some g => Some g
  | None =>
      match s with
      | String _ s' => search r s'
      | EmptyString => None
      end
  end.

End Re.

(** ** Price text

    The pattern of [re.search] in the source: an optional dollar sign
    [[\$]?], then capture group 1 made of [[0-9,]+], an optional period and
    a greedy run of digits. *)
Definition price_group : Re.regex :=
  Re.Group (Re.Cat (Re.Plus Text.is_digit_or_comma)
                   (Re.Cat (Re.Opt (Re.Class Text.is_dot))
                           (Re.Star Text.is_digit))).

Definition price_pattern : Re.regex :=
  Re.Cat (Re.Opt (Re.Class Text.is_dollar)) price_group.

(** What one price element contributes (the body of the inner loop):
    [None] when [re.search] finds nothing or when [float] raises
    [ValueError], in which case the loop goes on to the next element. *)
Definition price_of_text (element_text : string) : option double :=
  let price_text := Text.strip element_text in
  match Re.search price_pattern price_text with
  | Some (Some group1) => Text.float (Text.remove_commas group1)
  | _ => None
  end.

(** ** Parsed pages

    BeautifulSoup is an external library: a parsed page is known to the
    program only through [soup.select], which lists the matching elements in
    document order, and [get_text].  [soup.select_one] is the first element
    of [soup.select]. *)

Record Tag : Type := { get_text : string }.

Record BeautifulSoup : Type := { select : string -> list Tag }.

Definition select_one (soup : BeautifulSoup) (selector : string) : option Tag :=
  match select soup selector with
  | t :: _ => Some t
  | [] => None
  end.

Definition dquote : string := String (ascii_of_nat 34) EmptyString.

Definition price_selectors : list string :=
  [ "span.a-price-whole";
    "span.a-price.a-text-price.a-size-medium.apexPriceToPay span.a-offscreen";
    "span#priceblock_dealprice";
    "span#priceblock_ourprice";
    "span.a-price.a-text-price.a-size-medium span.a-offscreen";
    "span.a-price-range";
    ".a-price .a-offscreen";
    "span[data-a-color=" ++ dquote ++ "price" ++ dquote ++ "]";
    ".a-price-whole" ].

Definition title_selectors : list string :=
  [ "#productTitle";
    "h1.a-size-large";
    "h1#title";
    ".product-title";
    "h1 span" ].

(** The inner loop over the elements of one selector: the first element
    whose text gives a number ends it ([break]); the others are skipped
    ([continue], or no match).  A [Tag] is always true in a condition, so
    [if price_element:] filters nothing. *)
Fixpoint first_price (price_elements : list Tag) : option double :=
  match price_elements with
  | price_element :: rest =>
      match price_of_text (get_text price_element) with
      | Some price => Some price
      | None => first_price rest
      end
  | [] => None
  end.

(** The outer loop: [for selector in price_selectors], left when
    [price is not None]. *)
Fixpoint extract_price (soup : BeautifulSoup) (selectors : list string) : option double :=
  match selectors with
  | selector :: rest =>
      match first_price (select soup selector) with
      | Some price => Some price
      | None => extract_price soup rest
      end
  | [] => None
  end.

(** [for selector in title_selectors]: the first selector for which
    [select_one] returns an element ends the loop, whatever its text. *)
Fixpoint extract_title (soup : BeautifulSoup) (selectors : list string) : option string :=
  match selectors with
  | selector :: rest =>
      match select_one soup selector with
      | Some title_element => Some (Text.strip (get_text title_element))
      | None => extract_title soup rest
      end
  | [] => None
  end.

(** [title or f"Product {asin}"]: [None] and the empty string are false. *)
Definition title_or_default (title : option string) (asin : string) : string :=
  match title with
  | Some (String c t) => String c t
  | _ => "Product " ++ asin
  end.

(** ** Data *)

(** The dictionary returned by [scrape_amazon_price]. *)
Record Observation : Type :=
  { asin : string; title : string; price : double; currency : string; url : string }.

Definition asin_of (product_data : Observation) : string := asin product_data.
Definition url_of (product_data : Observation) : string := url product_data.

(** A row of table [price_history]. *)
Record Row : Type :=
  { id : Z;
    row_asin : string;
    row_title : string;
    row_price : double;
    row_currency : string;
    timestamp : Z;
    row_url : string }.

Record Response : Type :=
  { status_code : Z;
    (** [BeautifulSoup(response.content, 'html.parser')]; [None] when
        building or querying the document raises. *)
    content : option BeautifulSoup }.

Inductive Exn : Type :=
| RequestException     (* session.get: connection error, timeout *)
| HTTPError            (* response.raise_for_status() *)
| ParserError.         (* raised while the document is parsed or queried *)

Inductive Result (A : Type) : Type :=
| Ok (a : A)
| Raise (e : Exn).
Arguments Ok {A} a.
Arguments Raise {A} e.

(** Calls the program makes, in the order it makes them. *)
Inductive Event : Type :=
| EvScrape (asin : string)                (* scrape_amazon_price entered *)
| EvGet (url : string)                    (* session.get(url, ...)       *)
| EvSelect (asin : string) (days : Z)     (* the SELECT statement        *)
| EvInsert (r : Row).                     (* the INSERT statement        *)

Record World : Type :=
  { (** outcome of [session.get] for a locator *)
    web : string -> Exn + Response;
    (** whole seconds that pass while a locator is tried: the random pause
        of 2 to 5 seconds and the round trip *)
    elapse : string -> N;
    (** rows of [price_history], in insertion order *)
    db : list Row;
    clock : Z;
    trace : list Event }.

(** ** State and exceptions *)

Definition M (A : Type) : Type := World -> Result A * World.

Definition ret {A} (a : A) : M A := fun w => (Ok a, w).

Definition bind {A B} (m : M A) (f : A -> M B) : M B :=
  fun w =>
    match m w with
    | (Ok a, w') => f a w'
    | (Raise e, w') => (Raise e, w')
    end.

Definition raise {A} (e : Exn) : M A := fun w => (Raise e, w).

(** [try: body except Exception: handler] *)
Definition try_except {A} (body : M A) (handler : Exn -> M A) : M A :=
  fun w =>
    match body w with
    | (Ok a, w') => (Ok a, w')
    | (Raise e, w') => handler e w'
    end.

Declare Scope monad_scope.
Delimit Scope monad_scope with monad.
Notation "x <- c1 ;; c2" := (bind c1 (fun x => c2))
  (at level 100, c1 at next level, right associativity) : monad_scope.
Notation "c1 ;; c2" := (bind c1 (fun _ => c2))
  (at level 100, right associativity) : monad_scope.
Local Open Scope monad_scope.

Definition log (e : Event) : M unit :=
  fun w => (Ok tt, {| web := web w; elapse := elapse w; db := db w;
                      clock := clock w; trace := trace w ++ [e] |}).

Definition sleep (seconds : N) : M unit :=
  fun w => (Ok tt, {| web := web w; elapse := elapse w; db := db w;
                      clock := clock w + Z.of_N seconds; trace := trace w |}).

Definition world : M World := fun w => (Ok w, w).

(** [datetime.now()] *)
Definition now : M Z := fun w => (Ok (clock w), w).

(** [session.get(url, headers=headers, timeout=15)].  The headers, with
    their randomly chosen user agent, act only on what the site answers,
    which [web] leaves arbitrary. *)
Definition session_get (url : string) : M Response :=
  log (EvGet url);;
  w <- world;;
  match web w url with
  | inl e => raise e
  | inr response => ret response
  end.

(** [response.raise_for_status()] *)
Definition raise_for_status (response : Response) : M unit :=
  if (400 <=? status_code response) && (status_code response <? 600)
  then raise HTTPError
  else ret tt.

(** [BeautifulSoup(response.content, 'html.parser')] *)
Definition parse (response : Response) : M BeautifulSoup :=
  match content response with
  | Some soup => ret soup
  | None => raise ParserError
  end.

(** ** Page extractor *)

Definition urls_to_try (asin : string) : list string :=
  [ "https://www.amazon.com/dp/" ++ asin;
    "https://www.amazon.com/gp/product/" ++ asin ].

(** The body of [try:] for one locator.  [Some] is the [return] inside the
    loop; [None] lets the loop go on (the [continue] on status 503, or no
    price found). *)
Definition attempt (asin url : string) : M (option Observation) :=
  w <- world;;
  sleep (elapse w url);;
  response <- session_get url;;
  if status_code response =? 503 then ret None
  else
    raise_for_status response;;
    soup <- parse response;;
    let price := extract_price soup price_selectors in
    let title := extract_title soup title_selectors in
    match price with
    | Some p =>
        ret (Some {| asin := asin;
                     title := title_or_default title asin;
                     price := p;
                     currency := "USD";
                     url := url |})
    | None => ret None
    end.

(** [for url in urls_to_try: try: ... except Exception: continue] *)
Fixpoint scrape_urls (asin : string) (urls : list string) : M (option Observation) :=
  match urls with
  | url :: rest =>
      r <- try_except (attempt asin url) (fun _ => ret None);;
      match r with
      | Some product_data => ret (Some product_data)
      | None => scrape_urls asin rest
      end
  | [] => ret None
  end.

(** The mock response returned when all locators failed. *)
Definition mock_data (asin : string) : Observation :=
  {| asin := asin;
     title := "Mock Product " ++ asin ++ " (Scraping blocked - need proxy)";
     price := Double.of_Q 99.99;
     currency := "USD";
     url := "https://www.amazon.com/dp/" ++ asin |}.

Definition scrape_amazon_price (asin : string) : M Observation :=
  log (EvScrape asin);;
  r <- scrape_urls asin (urls_to_try asin);;
  match r with
  | Some product_data => ret product_data
  | None => ret (mock_data asin)
  end.

(** ** Observation store *)

(** The key SQLite gives a new row of an [INTEGER PRIMARY KEY] table: one
    more than the largest key in use. *)
Definition next_id (rows : list Row) : Z :=
  1 + fold_right (fun r m => Z.max (id r) m) 0 rows.

Definition new_row (rows : list Row) (now : Z) (product_data : Observation) : Row :=
  {| id := next_id rows;
     row_asin := asin product_data;
     row_title := title product_data;
     row_price := price product_data;
     row_currency := currency product_data;
     timestamp := now;                       (* DEFAULT CURRENT_TIMESTAMP *)
     row_url := url product_data |}.

Definition save_price_to_db (product_data : Observation) : M unit :=
  w <- world;;
  let r := new_row (db w) (clock w) product_data in
  log (EvInsert r);;
  fun w => (Ok tt, {| web := web w; elapse := elapse w; db := db w ++ [r];
                      clock := clock w; trace := trace w |}).

(** The first and the last second of SQLite's calendar, which runs from
    noon of 24 November 4714 BC (Julian day 0) to the end of the year
    9999. *)
Definition calendar_start : Z := -210866760000.
Definition calendar_end : Z := 253402300799.

(** [datetime('now', '-{} days'.format(days))].  The function yields NULL
    (here [None]) in three cases: a negative [days], which is formatted
    with two minus signs and is then not a modifier SQLite accepts; a
    number of days from 5373485 on, which SQLite refuses; a resulting date
    outside its calendar. *)
Definition sql_days_ago (now days : Z) : option Z :=
  if days <? 0 then None
  else if 5373485 <=? days then None
  else if (calendar_start <=? now - days * 86400) && (now - days * 86400 <=? calendar_end)
       then Some (now - days * 86400)
       else None.

(** [WHERE asin = ? AND timestamp >= datetime(...)]; a comparison with NULL
    selects nothing.  The two dates are texts in SQLite; for time stamps of
    the years 0000 to 9999 their order as texts is their order in time. *)
Definition where_clause (asin : string) (cutoff : option Z) (r : Row) : bool :=
  String.eqb (row_asin r) asin
  && match cutoff with
     | Some c => c <=? timestamp r
     | None => false
     end.

(** [ORDER BY timestamp DESC], as a stable insertion sort: rows with equal
    time stamps stay in insertion order. *)
Fixpoint insert_desc (r : Row) (sorted : list Row) : list Row :=
  match sorted with
  | x :: rest =>
      if timestamp x <=? timestamp r then r :: sorted
      else x :: insert_desc r rest
  | [] => [r]
  end.

Definition order_by_timestamp_desc (rows : list Row) : list Row :=
  fold_right insert_desc [] rows.

(** [min(prices)] and [max(prices)] on the non-empty list [first :: rest];
    Python keeps the earliest of equal candidates. *)
Definition py_min (first : double) (rest : list double) : double :=
  fold_left (fun m x => if Double.ltb x m then x else m) rest first.

Definition py_max (first : double) (rest : list double) : double :=
  fold_left (fun m x => if Double.ltb m x then x else m) rest first.

Record HistoryEntry : Type := { entry_price : double; entry_timestamp : Z }.

(** The fields of [PriceHistoryResponse], which are also the keys of the
    dictionary built by [get_price_history_from_db]. *)
Record PriceHistoryResponse : Type :=
  { history_asin : string;
    history_title : string;
    price_history : list HistoryEntry;
    lowest_price : double;
    highest_price : double }.

(** [cursor.fetchall()] of the SELECT statement. *)
Definition select_history (rows : list Row) (now : Z) (asin : string) (days : Z) : list Row :=
  order_by_timestamp_desc (filter (where_clause asin (sql_days_ago now days)) rows).

Definition get_price_history_from_db (asin : string) (days : Z)
  : M (option PriceHistoryResponse) :=
  log (EvSelect asin days);;
  w <- world;;
  let results := select_history (db w) (clock w) asin days in
  match results with
  | [] => ret None
  | first :: rest =>
      let prices := map row_price results in
      ret (Some {| history_asin := asin;
                   history_title := row_title first;
                   price_history :=
                     map (fun row => {| entry_price := row_price row;
                                        entry_timestamp := timestamp row |}) results;
                   lowest_price := py_min (row_price first) (map row_price rest);
                   highest_price := py_max (row_price first) (map row_price rest) |})
  end.

(** ** Request handlers *)

Record PriceResponse : Type :=
  { response_asin : string;
    response_title : string;
    current_price : double;
    response_currency : string;
    response_url : string;
    last_updated : Z }.

Definition get_current_price (asin : string) : M PriceResponse :=
  product_data <- scrape_amazon_price asin;;
  save_price_to_db product_data;;
  t <- now;;
  ret {| response_asin := asin_of product_data;
         response_title := title product_data;
         current_price := price product_data;
         response_currency := currency product_data;
         response_url := url product_data;
         last_updated := t |}.

Definition get_price_history (asin : string) (days : Z) : M PriceHistoryResponse :=
  history_data <- get_price_history_from_db asin days;;
  match history_data with
  | None =>
      current_data <- scrape_amazon_price asin;;
      save_price_to_db current_data;;
      t <- now;;
      ret {| history_asin := asin;
             history_title := title current_data;
             price_history := [ {| entry_price := price current_data;
                                   entry_timestamp := t |} ];
             lowest_price := price current_data;
             highest_price := price current_data |}
  | Some data => ret data
  end.

(** [str(n)] for an integer. *)
Definition str (n : Z) : string := NilZero.string_of_int (Z.to_int n).

Record DealsResponse : Type :=
  { deals_message : string;
    deals_category : string;
    deals_min_discount : string;
    deals_note : string }.

Definition find_deals (category : string) (min_discount limit : Z) : DealsResponse :=
  {| deals_message := "Deals endpoint coming soon!";
     deals_category := category;
     deals_min_discount := str min_discount ++ "%";
     deals_note := "This requires scraping Amazon's deals pages - will implement next" |}.

Record HealthResponse : Type := { health_status : string; health_timestamp : Z }.

Definition health_check : M HealthResponse :=
  t <- now;;
  ret {| health_status := "healthy"; health_timestamp := t |}.

Record RootResponse : Type := { root_message : string; root_docs : string }.

Definition read_root : RootResponse :=
  {| root_message := "Amazon Price Tracker API"; root_docs := "/docs" |}.

(** The routes of the application. *)
Inductive Request : Type :=
| GetRoot
| GetPrice (asin : string)
| GetHistory (asin : string) (days : Z)
| GetDeals (category : string) (min_discount limit : Z)
| GetHealth.

Inductive Body : Type :=
| RootBody (b : RootResponse)
| PriceBody (b : PriceResponse)
| HistoryBody (b : PriceHistoryResponse)
| DealsBody (b : DealsResponse)
| HealthBody (b : HealthResponse).

Definition fmap {A B} (f : A -> B) (m : M A) : M B := x <- m;; ret (f x).

Definition handle (req : Request) : M Body :=
  match req with
  | GetRoot => ret (RootBody read_root)
  | GetPrice asin => fmap PriceBody (get_current_price asin)
  | GetHistory asin days => fmap HistoryBody (get_price_history asin days)
  | GetDeals category min_discount limit =>
      ret (DealsBody (find_deals category min_discount limit))
  | GetHealth => fmap HealthBody health_check
  end.

(** The status the framework answers with: 200 when the handler returns,
    500 when an exception leaves it. *)
Definition http_status {A} (r : Result A) : Z :=
  match r with
  | Ok _ => 200
  | Raise _ => 500
  end.

(** ** Vocabulary of the statements *)

(** The text of capture group 1 when the group starts at the head of [s]:
    the run of digits and commas, then a period and the digits after it
    when a period follows the run. *)
Definition group_text (s : string) : string :=
  let (run, s2) := Text.span Text.is_digit_or_comma s in
  match s2 with
  | String c s3 =>
      if Text.is_dot c then run ++ String c (fst (Text.span Text.is_digit s3)) else run
  | EmptyString => run
  end.

(** Capture group 1 of the leftmost match of the price pattern, computed
    directly: the group starts at the first digit or comma of the text. *)
Fixpoint first_group (s : string) : option string :=
  match s with
  | String c s' => if Text.is_digit_or_comma c then Some (group_text s) else first_group s'
  | EmptyString => None
  end.

(** The locator [url] answers with a page that passes the status checks and
    parses as [soup]. *)
Definition serves (w : World) (url : string) (soup : BeautifulSoup) : Prop :=
  exists response : Response,
    web w url = inr response /\
    status_code response <> 503 /\
    (status_code response < 400 \/ 600 <= status_code response) /\
    content response = Some soup.

(** The fetch of a locator fails: the request raises, or the status is one
    that [raise_for_status] rejects (503 is among them). *)
Definition fetch_fails (outcome : Exn + Response) : Prop :=
  match outcome with
  | inl _ => True
  | inr response => 400 <= status_code response < 600
  end.

Definition contains (needle hay : string) : Prop :=
  exists before after : string, hay = before ++ needle ++ after.

(** A page given by the texts of the elements each selector matches. *)
Definition page_of (matches : list (string * list string)) : BeautifulSoup :=
  {| select := fun selector =>
       match find (fun m => String.eqb (fst m) selector) matches with
       | Some (_, texts) => map (fun t => {| get_text := t |}) texts
       | None => []
       end |}.

(** An element matches [#productTitle] but has no text; the title is in an
    [h1.a-size-large]. *)
Definition page_with_blank_title : BeautifulSoup :=
  page_of [ ("#productTitle", [""]);
            ("h1.a-size-large", ["Widget"]);
            (".a-price .a-offscreen", ["$5.00"]) ].

(** [c * n] *)
Fixpoint repeat_char (c : ascii) (n : nat) : string :=
  match n with
  | O => EmptyString
  | S n' => String c (repeat_char c n')
  end.

(** The price element holds a number of four hundred digits. *)
Definition page_with_huge_price : BeautifulSoup :=
  page_of [ ("#productTitle", ["Widget"]);
            ("span.a-price-whole", [repeat_char "9" 400]) ].

(** Two price selectors match. *)
Definition page_with_two_prices : BeautifulSoup :=
  page_of [ ("#productTitle", [" Widget "]);
            ("span#priceblock_ourprice", ["$12.50"]);
            (".a-price .a-offscreen", ["$5.00"]) ].

Definition world_of (site : string -> Exn + Response) (rows : list Row) (t : Z) : World :=
  {| web := site; elapse := fun _ => 3%N; db := rows; clock := t; trace := [] |}.

Definition offline : string -> Exn + Response := fun _ => inl RequestException.

Definition online (soup : BeautifulSoup) : string -> Exn + Response :=
  fun _ => inr {| status_code := 200; content := Some soup |}.

(** What one pass of the loop of [scrape_amazon_price] makes of the outcome
    of the request: the observation it returns, or [None] when the loop
    goes on to the next locator. *)
Definition locator_outcome (asin url : string) (outcome : Exn + Response)
  : option Observation :=
  match outcome with
  | inl _ => None
  | inr response =>
      if status_code response =? 503 then None
      else if (400 <=? status_code response) && (status_code response <? 600) then None
      else
        match content response with
        | None => None
        | Some soup =>
            match extract_price soup price_selectors with
            | Some p =>
                Some {| asin := asin;
                        title := title_or_default (extract_title soup title_selectors) asin;
                        price := p;
                        currency := "USD";
                        url := url |}
            | None => None
            end
        end
  end.

(** The world after an event was logged. *)
Definition logged (w : World) (e : Event) : World :=
  {| web := web w; elapse := elapse w; db := db w; clock := clock w;
     trace := trace w ++ [e] |}.

(** The world after one locator was tried. *)
Definition after_get (w : World) (url : string) : World :=
  {| web := web w; elapse := elapse w; db := db w;
     clock := clock w + Z.of_N (elapse w url);
     trace := trace w ++ [EvGet url] |}.

(** No stored row is stamped later than the present: time stamps are given
    at insertion and the clock does not run backwards. *)
Definition no_future_rows (w : World) : Prop :=
  Forall (fun r => timestamp r <= clock w) (db w).

(** SQLite can form the date that lies [days] days before [now]. *)
Definition window_representable (now days : Z) : Prop :=
  0 <= days < 5373485 /\
  calendar_start <= now - days * 86400 <= calendar_end.

(** The trailing window of [days] days that ends at [now]. *)
Definition in_window (now days t : Z) : bool :=
  (now - days * 86400 <=? t) && (t <=? now).

(** The observations of [asin] captured within the window. *)
Definition observations_in_window (rows : list Row) (now : Z) (asin : string) (days : Z)
  : list Row :=
  filter (fun r => String.eqb (row_asin r) asin && in_window now days (timestamp r)) rows.

Definition newest_first (rows : list Row) : Prop :=
  StronglySorted (fun a b => timestamp b <= timestamp a) rows.

Definition is_min (m : double) (l : list double) : Prop :=
  In m l /\ forall x, In x l -> Double.le m x.

Definition is_max (m : double) (l : list double) : Prop :=
  In m l /\ forall x, In x l -> Double.le x m.

Definition entry_of (row : Row) : HistoryEntry :=
  {| entry_price := row_price row; entry_timestamp := timestamp row |}.

(** A run of appends, each after a pause. *)
Fixpoint save_all (script : list (N * Observation)) : M unit :=
  match script with
  | (pause, product_data) :: rest =>
      sleep pause;; save_price_to_db product_data;; save_all rest
  | [] => ret tt
  end.

Definition count_scrapes (events : list Event) : nat :=
  List.length (filter (fun e => match e with EvScrape _ => true | _ => false end) events).

Definition count_inserts (events : list Event) : nat :=
  List.length (filter (fun e => match e with EvInsert _ => true | _ => false end) events).

(** The world after [save_price_to_db] appended an observation. *)
Definition appended (w : World) (product_data : Observation) : World :=
  {| web := web w; elapse := elapse w;
     db := db w ++ [new_row (db w) (clock w) product_data];
     clock := clock w;
     trace := trace w ++ [EvInsert (new_row (db w) (clock w) product_data)] |}.

(** The history built from one fresh observation. *)
Definition single_entry (asin : string) (product_data : Observation) (t : Z)
  : PriceHistoryResponse :=
  {| history_asin := asin;
     history_title := title product_data;
     price_history := [ {| entry_price := price product_data; entry_timestamp := t |} ];
     lowest_price := price product_data;
     highest_price := price product_data |}.

Definition sample_row (i : Z) (asin : string) (p : Q) (t : Z) : Row :=
  {| id := i; row_asin := asin; row_title := "Widget"; row_price := Double.of_Q p;
     row_currency := "USD"; timestamp := t;
     row_url := "https://www.amazon.com/dp/" ++ asin |}.

Definition sample_observation (asin : string) (p : Q) : Observation :=
  {| asin := asin; title := "Widget"; price := Double.of_Q p; currency := "USD";
     url := "https://www.amazon.com/dp/" ++ asin |}.

(** Three observations of one identifier, one of another, read on day 40:
    the first row is older than thirty days. *)
Definition sample_world : World :=
  world_of offline
    [ sample_row 1 "B00TEST" 12.50 86400;
      sample_row 2 "B00TEST" 9.99 (20 * 86400);
      sample_row 3 "B00OTHER" 3.00 (21 * 86400);
      sample_row 4 "B00TEST" 11.00 (39 * 86400) ]
    (40 * 86400).

(** One observation of the identifier, ten days old. *)
Definition stale_world : World :=
  world_of offline [ sample_row 1 "B00TEST" 12.50 0 ] (10 * 86400).

(** The same with another stored price, while the site serves a page priced
    at 12.50. *)
Definition stale_world_online : World :=
  world_of (online page_with_two_prices) [ sample_row 1 "B00TEST" 7.25 0 ] (10 * 86400).

(** ** Request headers

    A dictionary is the list of its items in insertion order. *)

Definition dict : Type := list (string * string).

(** [d[k] = v]: an existing key keeps its place and takes the new value, a
    new key goes to the end. *)
Fixpoint setitem (k v : string) (d : dict) : dict :=
  match d with
  | (k', v') :: rest =>
      if String.eqb k k' then (k, v) :: rest else (k', v') :: setitem k v rest
  | [] => [(k, v)]
  end.

(** [d.update(other)] *)
Definition update (d other : dict) : dict :=
  fold_left (fun acc item => setitem (fst item) (snd item) acc) other d.

(** [d.get(k)] *)
Fixpoint getitem (k : string) (d : dict) : option string :=
  match d with
  | (k', v) :: rest => if String.eqb k k' then Some v else getitem k rest
  | [] => None
  end.

Definition user_agents : list string :=
  [ "Mozilla/5.0 (Windows NT 10.0; Win64; x64) AppleWebKit/537.36 (KHTML, like Gecko) Chrome/91.0.4472.124 Safari/537.36";
    "Mozilla/5.0 (Macintosh; Intel Mac OS X 10_15_7) AppleWebKit/605.1.15 (KHTML, like Gecko) Version/14.1.1 Safari/605.1.15";
    "Mozilla/5.0 (X11; Linux x86_64) AppleWebKit/537.36 (KHTML, like Gecko) Chrome/91.0.4472.124 Safari/537.36" ].

(** [random.choice(seq)] on a non-empty sequence, [r] being the random
    draw. *)
Definition random_choice (r : nat) (seq : list string) : string :=
  nth (r mod List.length seq) seq "".

Definition get_random_headers (r : nat) : dict :=
  [ ("User-Agent", random_choice r user_agents);
    ("Accept-Language", "en-US,en;q=0.9");
    ("Accept-Encoding", "gzip, deflate, br");
    ("DNT", "1");
    ("Connection", "keep-alive");
    ("Upgrade-Insecure-Requests", "1") ].

(** The headers [scrape_amazon_price] sends: [get_random_headers()] followed
    by [headers.update({...})]. *)
Definition request_headers (r : nat) : dict :=
  update (get_random_headers r)
    [ ("Accept", "text/html,application/xhtml+xml,application/xml;q=0.9,image/webp,*/*;q=0.8");
      ("Accept-Language", "en-US,en;q=0.5");
      ("Cache-Control", "no-cache");
      ("Pragma", "no-cache") ].

(** ** Further vocabulary *)

(** The rows are stored in the order of their time stamps and none is from
    the future. *)
Definition chronological (w : World) : Prop :=
  no_future_rows w /\
  StronglySorted (fun a b => timestamp a <= timestamp b) (db w).

(** The locator gives the loop nothing to return: the fetch fails, or the
    document cannot be parsed, or the page is served and no price selector
    yields a number. *)
Definition gives_no_price (w : World) (url : string) : Prop :=
  fetch_fails (web w url) \/
  (exists response, web w url = inr response /\ content response = None) \/
  (exists soup, serves w url soup /\ extract_price soup price_selectors = None).

(** A genuine page whose title and price are those of the mock response. *)
Definition mock_lookalike_page (asin : string) : BeautifulSoup :=
  page_of [ ("#productTitle", [ title (mock_data asin) ]);
            ("span.a-price-whole", [ "99.99" ]) ].

(** The text is empty or starts with a character outside the class [p]. *)
Definition stops (p : ascii -> bool) (s : string) : Prop :=
  match s with
  | String c _ => p c = false
  | EmptyString => True
  end.

(** * Properties *)

(** ** Doubles *)

Section DoubleFacts.
Import Double.

Lemma le_refl (x : double) : le x x.
Proof. destruct x; simpl; [apply Qle_refl|exact I]. Qed.

Lemma le_trans (x y z : double) : le x y -> le y z -> le x z.
Proof.
  destruct x, y, z; simpl; try tauto. apply Qle_trans.
Qed.

Lemma ltb_true_le (x y : double) : ltb x y = true -> le x y.
Proof.
  destruct x, y; simpl; try discriminate; try tauto.
  rewrite negb_true_iff. intros H. apply Qlt_le_weak, Qnot_le_lt.
  intros Hle. apply Qle_bool_iff in Hle. congruence.
Qed.

Lemma ltb_false_le (x y : double) : ltb x y = false -> le y x.
Proof.
  destruct x, y; simpl; try discriminate; try tauto.
  rewrite negb_false_iff. apply Qle_bool_iff.
Qed.

Lemma round_half_even_nonneg (n d : Z) :
  0 <= n -> 0 < d -> 0 <= round_half_even n d.
Proof.
  intros Hn Hd. unfold round_half_even.
  pose proof (Z.div_pos n d Hn Hd).
  destruct (2 * (n mod d) ?= d); [destruct (Z.even (n / d))| |]; lia.
Qed.

(** Reading a decimal never gives a negative double. *)
Lemma nearest_nonneg (n : Z) (d : positive) : nonneg (nearest n d).
Proof.
  unfold nonneg, nearest.
  destruct (n <=? 0) eqn:En; [apply Qle_refl|]. apply Z.leb_gt in En.
  set (e := Z.max (floor_log2 n (Z.pos d) - 52) (-1074)).
  destruct (0 <=? e) eqn:Ee.
  - apply Z.leb_le in Ee.
    assert (Hm : 0 <= round_half_even n (Z.pos d * 2 ^ e)).
    { apply round_half_even_nonneg; [lia|].
      apply Z.mul_pos_pos; [lia|]. now apply Z.pow_pos_nonneg. }
    destruct (2 ^ 1024 <=? round_half_even n (Z.pos d * 2 ^ e) * 2 ^ e); [exact I|].
    unfold le, Qle. cbn [Qnum Qden].
    assert (0 <= 2 ^ e) by now apply Z.pow_nonneg. nia.
  - assert (Hm : 0 <= round_half_even (n * 2 ^ (- e)) (Z.pos d)).
    { apply round_half_even_nonneg; [|lia].
      apply Z.mul_nonneg_nonneg; [lia|]. now apply Z.pow_nonneg. }
    unfold le. rewrite Qred_correct. unfold Qle. cbn [Qnum Qden]. lia.
Qed.

End DoubleFacts.

(** ** Text *)

Section TextFacts.
Import Text.

Lemma span_append (p : ascii -> bool) (s : string) :
  fst (span p s) ++ snd (span p s) = s.
Proof.
  induction s as [|c s IH]; simpl; [reflexivity|].
  destruct (p c); [|reflexivity].
  destruct (span p s) as [a b]; simpl in *. now rewrite IH.
Qed.

Lemma span_forallb (p : ascii -> bool) (s : string) :
  forallb p (fst (span p s)) = true.
Proof.
  induction s as [|c s IH]; simpl; [reflexivity|].
  destruct (p c) eqn:E; [|reflexivity].
  destruct (span p s) as [a b]; simpl in *. now rewrite E.
Qed.

Lemma span_drop_while (p : ascii -> bool) (s : string) :
  snd (span p s) = drop_while p s.
Proof.
  induction s as [|c s IH]; simpl; [reflexivity|].
  destruct (p c); [|reflexivity].
  destruct (span p s) as [a b]; simpl in *. exact IH.
Qed.

Lemma span_all (p : ascii -> bool) (s : string) :
  forallb p s = true -> span p s = (s, EmptyString).
Proof.
  induction s as [|c s IH]; simpl; [reflexivity|].
  destruct (p c); simpl; [|discriminate].
  intros H. now rewrite (IH H).
Qed.

Lemma length_append (a b : string) :
  String.length (a ++ b) = (String.length a + String.length b)%nat.
Proof. induction a as [|c a IH]; simpl; [reflexivity|now rewrite IH]. Qed.

Lemma take_append (a b : string) :
  take (String.length (a ++ b) - String.length b) (a ++ b) = a.
Proof.
  rewrite length_append.
  replace (String.length a + String.length b - String.length b)%nat
    with (String.length a) by lia.
  induction a as [|c a IH]; simpl.
  - now destruct b.
  - now rewrite IH.
Qed.

Lemma take_prefix (a b s : string) :
  s = a ++ b -> take (String.length s - String.length b) s = a.
Proof. intros ->. apply take_append. Qed.

Lemma append_empty_r (a : string) : a ++ "" = a.
Proof. induction a as [|c a IH]; simpl; [reflexivity|now rewrite IH]. Qed.

Lemma append_assoc (a b c : string) : (a ++ b) ++ c = a ++ (b ++ c).
Proof. induction a as [|x a IH]; simpl; [reflexivity|now rewrite IH]. Qed.





(** Sub-strings keep a property of all characters. *)




Lemma forallb_remove_commas (p : ascii -> bool) (s : string) :
  forallb p s = true -> forallb p (remove_commas s) = true.
Proof.
  induction s as [|c s IH]; simpl; [reflexivity|].
  intros H. apply andb_prop in H as [Hc Hs].
  destruct (is_comma c); simpl; [auto|now rewrite Hc, IH].
Qed.

Lemma forallb_take (p : ascii -> bool) (n : nat) (s : string) :
  forallb p s = true -> forallb p (take n s) = true.
Proof.
  revert s. induction n as [|n IH]; intros [|c s]; simpl; try reflexivity.
  intros H. apply andb_prop in H as [Hc Hs]. now rewrite Hc, IH.
Qed.


Lemma remove_commas_app (a b : string) :
  remove_commas (a ++ b) = remove_commas a ++ remove_commas b.
Proof.
  induction a as [|c a IH]; simpl; [reflexivity|].
  destruct (is_comma c); simpl; now rewrite IH.
Qed.

Lemma remove_commas_digits (s : string) :
  forallb is_digit s = true -> remove_commas s = s.
Proof.
  induction s as [|c s IH]; simpl; [reflexivity|].
  intros H. apply andb_prop in H as [Hc Hs].
  destruct (is_comma c) eqn:E.
  - apply Ascii.eqb_eq in E. subst c. discriminate.
  - now rewrite IH.
Qed.

Lemma remove_commas_run (s : string) :
  forallb is_digit_or_comma s = true -> forallb is_digit (remove_commas s) = true.
Proof.
  induction s as [|c s IH]; simpl; [reflexivity|].
  intros H. apply andb_prop in H as [Hc Hs]. unfold is_digit_or_comma in Hc.
  destruct (is_comma c); simpl; [auto|].
  rewrite orb_false_r in Hc. now rewrite Hc, IH.
Qed.

Lemma existsb_remove_commas (s : string) :
  existsb is_digit (remove_commas s) = existsb is_digit s.
Proof.
  induction s as [|c s IH]; simpl; [reflexivity|].
  destruct (is_comma c) eqn:E; simpl; rewrite IH; [|reflexivity].
  apply Ascii.eqb_eq in E. now subst c.
Qed.

Lemma digits_value_nonneg (s : string) (acc : Z) :
  forallb is_digit s = true -> 0 <= acc -> 0 <= digits_value acc s.
Proof.
  revert acc. induction s as [|c s IH]; cbn [digits_value forallb];
    intros acc H Hacc; [exact Hacc|].
  apply andb_prop in H as [Hc Hs]. apply IH; [exact Hs|].
  unfold is_digit in Hc. apply andb_prop in Hc as [Hlo _].
  apply Nat.leb_le in Hlo. lia.
Qed.



Lemma float_nonneg (s : string) (q : double) : float s = Some q -> Double.nonneg q.
Proof.
  unfold float.
  destruct (span is_digit s) as [ip rest].
  destruct rest as [|c fp].
  - destruct (is_empty ip); [discriminate|]. intros [= <-]. apply nearest_nonneg.
  - destruct (is_dot c); [|discriminate].
    destruct (span is_digit fp) as [fd rest'].
    destruct (is_empty rest' && negb (is_empty ip && is_empty fd)); [|discriminate].
    intros [= <-]. apply nearest_nonneg.
Qed.

End TextFacts.

(** ** The price pattern *)

Section PatternFacts.
Import Text Re.

(** A greedy run never backtracks when what follows always matches. *)
Lemma star_total {R : Type} (p : ascii -> bool) (s : string) (k : string -> option R) :
  (forall s', k s' <> None) -> star p s k = k (drop_while p s).
Proof.
  intros Hk. induction s as [|c s IH]; simpl; [reflexivity|].
  destruct (p c); [|reflexivity].
  rewrite IH. destruct (k (drop_while p s)) eqn:E; [reflexivity|].
  now apply Hk in E.
Qed.

Lemma drop_while_head (p q : ascii -> bool) (s : string) :
  (forall c, q c = true -> p c = true) ->
  drop_while q (drop_while p s) = drop_while p s.
Proof.
  intros Hqp. induction s as [|c s IH]; simpl; [reflexivity|].
  destruct (p c) eqn:E; [exact IH|].
  simpl. destruct (q c) eqn:E'; [|reflexivity].
  apply Hqp in E'. congruence.
Qed.

Lemma digit_is_digit_or_comma (c : ascii) :
  is_digit c = true -> is_digit_or_comma c = true.
Proof. unfold is_digit_or_comma. now intros ->. Qed.

Lemma dollar_not_digit_or_comma (c : ascii) :
  is_dollar c = true -> is_digit_or_comma c = false.
Proof. intros H. apply Ascii.eqb_eq in H. now subst c. Qed.

(** The capture group matched at the head of a text that starts with a
    digit or a comma. *)
Lemma price_group_at (c : ascii) (s : string) (g : option string) :
  is_digit_or_comma c = true ->
  rmatch price_group (String c s) g (fun _ g' => Some g') = Some (Some (group_text (String c s))).
Proof.
  intros Hc. unfold price_group.
  cbn [rmatch]. rewrite Hc.
  rewrite star_total.
  2:{ intros s2. destruct s2 as [|d s3]; [now rewrite star_total|].
      destruct (is_dot d); rewrite star_total; discriminate. }
  unfold group_text. cbn [span]. rewrite Hc.
  pose proof (span_append is_digit_or_comma s) as Happ.
  pose proof (span_drop_while is_digit_or_comma s) as Hdrop.
  destruct (span is_digit_or_comma s) as [run s2]. simpl in Happ, Hdrop.
  assert (Hs2 : drop_while is_digit s2 = s2)
    by (rewrite Hdrop; apply drop_while_head, digit_is_digit_or_comma).
  rewrite <- Hdrop. clear Hdrop.
  destruct s2 as [|d s3].
  - rewrite star_total by discriminate. cbn [drop_while].
    do 2 f_equal. apply take_prefix. rewrite <- Happ.
    now rewrite !append_empty_r.
  - destruct (is_dot d) eqn:Ed.
    + rewrite star_total by discriminate.
      do 2 f_equal. apply take_prefix. rewrite <- Happ.
      pose proof (span_append is_digit s3) as Happ3.
      rewrite <- (span_drop_while is_digit s3).
      destruct (span is_digit s3) as [fd s4]. cbn [fst snd] in *.
      rewrite <- Happ3. cbn [append]. f_equal.
      now rewrite append_assoc.
    + rewrite star_total by discriminate. rewrite Hs2.
      do 2 f_equal. apply take_prefix. now rewrite <- Happ.
Qed.

Lemma price_group_fails (s : string) (g : option string) :
  match s with
  | String c _ => is_digit_or_comma c = false
  | EmptyString => True
  end ->
  rmatch price_group s g (fun _ g' => Some g') = None.
Proof.
  unfold price_group. destruct s as [|c s]; cbn [rmatch]; [reflexivity|].
  now intros ->.
Qed.

(** [re.search] with the price pattern, computed directly. *)
Lemma search_price_pattern (s : string) :
  search price_pattern s = option_map Some (first_group s).
Proof.
  induction s as [|c s IH].
  - reflexivity.
  - cbn [search first_group]. unfold match_here, price_pattern.
    cbn [rmatch]. fold price_group.
    destruct (is_digit_or_comma c) eqn:Hc.
    + assert (Hd : is_dollar c = false).
      { destruct (is_dollar c) eqn:E; [|reflexivity].
        apply dollar_not_digit_or_comma in E. congruence. }
      rewrite Hd. now rewrite (price_group_at c s None Hc).
    + rewrite (price_group_fails (String c s) None Hc).
      destruct (is_dollar c).
      * destruct s as [|d s'].
        -- reflexivity.
        -- destruct (is_digit_or_comma d) eqn:Hd.
           ++ rewrite (price_group_at d s' None Hd).
              cbn [first_group]. now rewrite Hd.
           ++ rewrite (price_group_fails (String d s') None Hd). exact IH.
      * exact IH.
Qed.

Lemma price_of_text_direct (t : string) :
  price_of_text t =
  match first_group (strip t) with
  | Some group1 => float (remove_commas group1)
  | None => None
  end.
Proof.
  unfold price_of_text. rewrite search_price_pattern.
  now destruct (first_group (strip t)).
Qed.




(** What reaches [float]: digits, then possibly a period and digits. *)
Lemma price_literal_shape (s g : string) :
  first_group s = Some g ->
  exists a b : string,
    forallb is_digit a = true /\ forallb is_digit b = true /\
    (remove_commas g = a \/ remove_commas g = a ++ String "." b).
Proof.
  induction s as [|c s IH]; cbn [first_group]; [discriminate|].
  destruct (is_digit_or_comma c); [|exact IH].
  intros [= <-]. unfold group_text.
  pose proof (span_forallb is_digit_or_comma (String c s)) as Hrun.
  destruct (span is_digit_or_comma (String c s)) as [run s2]. simpl in Hrun.
  apply remove_commas_run in Hrun.
  destruct s2 as [|d s3].
  - exists (remove_commas run), "". auto.
  - destruct (is_dot d) eqn:Ed.
    + exists (remove_commas run), (fst (span is_digit s3)).
      split; [exact Hrun|]. split; [apply span_forallb|]. right.
      rewrite remove_commas_app. f_equal.
      apply Ascii.eqb_eq in Ed. subst d. simpl. f_equal.
      apply remove_commas_digits, span_forallb.
    + exists (remove_commas run), "". auto.
Qed.


Lemma digit_or_comma_not_space (c : ascii) :
  is_digit_or_comma c = true -> negb (isspace c) = true.
Proof.
  unfold is_digit_or_comma, is_digit, is_comma, isspace. cbv zeta. intros H.
  apply orb_prop in H as [H|H].
  - apply andb_prop in H as [H1 H2]. apply Nat.leb_le in H1, H2.
    set (n := nat_of_ascii c) in *.
    destruct (Nat.leb_spec 9 n), (Nat.leb_spec n 13), (Nat.leb_spec 28 n),
      (Nat.leb_spec n 32), (Nat.eqb_spec n 133), (Nat.eqb_spec n 160);
      simpl; try reflexivity; lia.
  - apply Ascii.eqb_eq in H. now subst c.
Qed.




Lemma price_of_text_nonneg (t : string) (q : double) :
  price_of_text t = Some q -> Double.nonneg q.
Proof.
  unfold price_of_text.
  destruct (search price_pattern (strip t)) as [[g|]|]; try discriminate.
  apply float_nonneg.
Qed.

End PatternFacts.

(** ** The selector loops *)

Section SelectorFacts.
Variable soup : BeautifulSoup.

Lemma first_price_skips (before : list Tag) (e : Tag) (after : list Tag) (p : double) :
  (forall x, In x before -> price_of_text (get_text x) = None) ->
  price_of_text (get_text e) = Some p ->
  first_price (before ++ e :: after) = Some p.
Proof.
  intros Hb He. induction before as [|x before IH]; simpl.
  - now rewrite He.
  - rewrite (Hb x) by now left. apply IH. intros y Hy. apply Hb. now right.
Qed.

Lemma first_price_nonneg (l : list Tag) (p : double) :
  first_price l = Some p -> Double.nonneg p.
Proof.
  induction l as [|e l IH]; simpl; [discriminate|].
  destruct (price_of_text (get_text e)) as [q|] eqn:E; [|exact IH].
  intros [= <-]. eapply price_of_text_nonneg, E.
Qed.

(** The price is the one of the earliest selector that yields a number. *)
Lemma extract_price_earliest (selectors : list string) (k : nat) (sk : string) (p : double) :
  nth_error selectors k = Some sk ->
  first_price (select soup sk) = Some p ->
  (forall k' sk', (k' < k)%nat -> nth_error selectors k' = Some sk' ->
                  first_price (select soup sk') = None) ->
  extract_price soup selectors = Some p.
Proof.
  revert k. induction selectors as [|s selectors IH]; intros k Hk Hp Hbefore.
  - now destruct k.
  - destruct k as [|k]; simpl in *.
    + injection Hk as ->. now rewrite Hp.
    + rewrite (Hbefore 0%nat s) by (reflexivity || lia).
      apply (IH k Hk Hp). intros k' sk' Hlt Hnth.
      apply (Hbefore (S k') sk'); [lia|exact Hnth].
Qed.

(** Among the selectors up to index [i], one is the earliest to yield. *)
Lemma earliest_yielding (selectors : list string) (i : nat) (si : string) (pi : double) :
  nth_error selectors i = Some si ->
  first_price (select soup si) = Some pi ->
  exists (k : nat) (sk : string) (p : double),
    (k <= i)%nat /\ nth_error selectors k = Some sk /\
    first_price (select soup sk) = Some p /\
    (forall k' sk', (k' < k)%nat -> nth_error selectors k' = Some sk' ->
                    first_price (select soup sk') = None).
Proof.
  revert i. induction selectors as [|s selectors IH]; intros i Hi Hp.
  - now destruct i.
  - destruct (first_price (select soup s)) as [q|] eqn:E.
    + exists 0%nat, s, q. repeat split; [lia|exact E|]. intros k' sk' Hlt. lia.
    + destruct i as [|i]; simpl in Hi.
      * injection Hi as ->. congruence.
      * destruct (IH i Hi Hp) as (k & sk & p & Hle & Hk & Hpk & Hbefore).
        exists (S k), sk, p. repeat split; [lia|exact Hk|exact Hpk|].
        intros [|k'] sk' Hlt Hnth; simpl in Hnth.
        -- injection Hnth as <-. exact E.
        -- apply (Hbefore k' sk'); [lia|exact Hnth].
Qed.

Lemma extract_price_nonneg (selectors : list string) (p : double) :
  extract_price soup selectors = Some p -> Double.nonneg p.
Proof.
  induction selectors as [|s selectors IH]; simpl; [discriminate|].
  destruct (first_price (select soup s)) as [q|] eqn:E; [|exact IH].
  intros [= <-]. eapply first_price_nonneg, E.
Qed.

(** The title comes from the earliest selector that matches an element. *)
Lemma extract_title_earliest (selectors : list string) (i : nat) (si : string) (e : Tag) :
  nth_error selectors i = Some si ->
  select_one soup si = Some e ->
  (forall k sk, (k < i)%nat -> nth_error selectors k = Some sk ->
                select_one soup sk = None) ->
  extract_title soup selectors = Some (Text.strip (get_text e)).
Proof.
  revert i. induction selectors as [|s selectors IH]; intros i Hi He Hbefore.
  - now destruct i.
  - destruct i as [|i]; simpl in *.
    + injection Hi as ->. now rewrite He.
    + rewrite (Hbefore 0%nat s) by (reflexivity || lia).
      apply (IH i Hi He). intros k sk Hlt Hnth.
      apply (Hbefore (S k) sk); [lia|exact Hnth].
Qed.

Lemma extract_title_none (selectors : list string) :
  (forall s, In s selectors -> select_one soup s = None) ->
  extract_title soup selectors = None.
Proof.
  induction selectors as [|s selectors IH]; intros H; simpl; [reflexivity|].
  rewrite (H s) by now left. apply IH. intros x Hx. apply H. now right.
Qed.

End SelectorFacts.

(** ** The page extractor *)

Section ExtractorFacts.

(** One pass of the loop never raises; it only logs the request and lets
    time pass. *)
Lemma try_attempt (asin url : string) (w : World) :
  try_except (attempt asin url) (fun _ => ret None) w
  = (Ok (locator_outcome asin url (web w url)), after_get w url).
Proof.
  unfold try_except, attempt, session_get, raise_for_status, parse, after_get,
    locator_outcome, bind, world, sleep, log, ret, raise.
  cbn [web elapse db clock trace].
  destruct (web w url) as [e|response]; [reflexivity|].
  destruct (status_code response =? 503); [reflexivity|].
  destruct ((400 <=? status_code response) && (status_code response <? 600));
    [reflexivity|].
  destruct (content response) as [soup|]; [|reflexivity].
  now destruct (extract_price soup price_selectors).
Qed.

Lemma locator_outcome_sound (asin url : string) (outcome : Exn + Response) (o : Observation) :
  locator_outcome asin url outcome = Some o ->
  asin_of o = asin /\ url_of o = url /\ currency o = "USD" /\ Double.nonneg (price o).
Proof.
  unfold locator_outcome. destruct outcome as [e|response]; [discriminate|].
  destruct (status_code response =? 503); [discriminate|].
  destruct ((400 <=? status_code response) && (status_code response <? 600));
    [discriminate|].
  destruct (content response) as [soup|]; [|discriminate].
  destruct (extract_price soup price_selectors) as [p|] eqn:E; [|discriminate].
  intros [= <-]. repeat split. simpl. eapply extract_price_nonneg, E.
Qed.

Lemma locator_outcome_fails (asin url : string) (outcome : Exn + Response) :
  fetch_fails outcome -> locator_outcome asin url outcome = None.
Proof.
  unfold fetch_fails, locator_outcome. destruct outcome as [e|response]; [reflexivity|].
  intros [Hlo Hhi]. destruct (status_code response =? 503); [reflexivity|].
  apply Z.leb_le in Hlo. apply Z.ltb_lt in Hhi. now rewrite Hlo, Hhi.
Qed.

Lemma locator_outcome_serves (asin url : string) (w : World) (soup : BeautifulSoup) (p : double) :
  serves w url soup ->
  extract_price soup price_selectors = Some p ->
  locator_outcome asin url (web w url)
  = Some {| asin := asin;
            title := title_or_default (extract_title soup title_selectors) asin;
            price := p; currency := "USD"; url := url |}.
Proof.
  intros (response & Hweb & H503 & Hstatus & Hcontent) Hp.
  unfold locator_outcome. rewrite Hweb.
  apply Z.eqb_neq in H503. rewrite H503.
  assert ((400 <=? status_code response) && (status_code response <? 600) = false) as ->.
  { apply andb_false_iff. destruct Hstatus as [H|H].
    - left. apply Z.leb_gt. exact H.
    - right. apply Z.ltb_ge. exact H. }
  now rewrite Hcontent, Hp.
Qed.

(** The loop over the locators: it returns, changes nothing but the clock
    and the log of requests, and what it finds is an observation of the
    identifier with a price that is not negative. *)
Lemma scrape_urls_returns (asin : string) (urls : list string) (w : World) :
  exists (r : option Observation) (w' : World) (gets : list string),
    scrape_urls asin urls w = (Ok r, w') /\
    web w' = web w /\ elapse w' = elapse w /\ db w' = db w /\
    clock w <= clock w' /\
    trace w' = (trace w ++ map EvGet gets)%list /\
    (forall o, r = Some o -> asin_of o = asin /\ Double.nonneg (price o)).
Proof.
  revert w. induction urls as [|u urls IH]; intros w.
  - exists None, w, []. cbn [scrape_urls ret map]. rewrite app_nil_r.
    repeat split; try reflexivity; try lia; discriminate.
  - cbn [scrape_urls]. unfold bind at 1. rewrite try_attempt.
    destruct (locator_outcome asin u (web w u)) as [o|] eqn:E.
    + exists (Some o), (after_get w u), [u].
      apply locator_outcome_sound in E as (Ha & _ & _ & Hp).
      cbn [after_get web elapse db clock trace map ret].
      repeat split; try reflexivity; try lia; injection H as <-; assumption.
    + destruct (IH (after_get w u))
        as (r & w' & gets & Hrun & Hweb & Hel & Hdb & Hclk & Htr & Hr).
      exists r, w', (u :: gets). rewrite Hrun.
      cbn [after_get web elapse db clock trace] in *.
      repeat split; try assumption; try lia.
      * rewrite Htr, <- app_assoc. reflexivity.
      * now apply Hr.
      * now apply Hr.
Qed.

Lemma scrape_urls_first (asin u : string) (urls : list string) (w : World) (o : Observation) :
  locator_outcome asin u (web w u) = Some o ->
  scrape_urls asin (u :: urls) w = (Ok (Some o), after_get w u).
Proof.
  intros E. cbn [scrape_urls]. unfold bind at 1. now rewrite try_attempt, E.
Qed.

Lemma scrape_urls_all_fail (asin : string) (urls : list string) (w : World) :
  (forall u, In u urls -> locator_outcome asin u (web w u) = None) ->
  fst (scrape_urls asin urls w) = Ok None.
Proof.
  revert w. induction urls as [|u urls IH]; intros w H; [reflexivity|].
  cbn [scrape_urls]. unfold bind at 1. rewrite try_attempt.
  rewrite (H u) by now left. apply IH.
  intros x Hx. cbn [after_get web]. apply H. now right.
Qed.

Lemma scrape_amazon_price_unfold (asin : string) (w : World) :
  scrape_amazon_price asin w =
  match scrape_urls asin (urls_to_try asin) (logged w (EvScrape asin)) with
  | (Ok (Some product_data), w') => (Ok product_data, w')
  | (Ok None, w') => (Ok (mock_data asin), w')
  | (Raise e, w') => (Raise e, w')
  end.
Proof.
  unfold scrape_amazon_price, bind, log, logged. cbv beta iota.
  destruct (scrape_urls asin (urls_to_try asin) _) as [[[o|]|e] w']; reflexivity.
Qed.

Lemma mock_price_nonneg (asin : string) : Double.nonneg (price (mock_data asin)).
Proof. apply nearest_nonneg. Qed.

(** The extractor as a whole: it always returns an observation of the
    identifier, priced at zero or more; it touches neither the store nor
    the site; its log is its own entry followed by the requests made. *)
Lemma scrape_amazon_price_returns (asin : string) (w : World) :
  exists (o : Observation) (w' : World) (gets : list string),
    scrape_amazon_price asin w = (Ok o, w') /\
    web w' = web w /\ elapse w' = elapse w /\ db w' = db w /\
    clock w <= clock w' /\
    trace w' = (trace w ++ EvScrape asin :: map EvGet gets)%list /\
    asin_of o = asin /\ Double.nonneg (price o).
Proof.
  rewrite scrape_amazon_price_unfold.
  destruct (scrape_urls_returns asin (urls_to_try asin) (logged w (EvScrape asin)))
    as (r & w' & gets & Hrun & Hweb & Hel & Hdb & Hclk & Htr & Hr).
  rewrite Hrun. cbn [logged web elapse db clock trace] in *.
  assert (Htr' : trace w' = (trace w ++ EvScrape asin :: map EvGet gets)%list)
    by (rewrite Htr, <- app_assoc; reflexivity).
  destruct r as [o|].
  - exists o, w', gets. destruct (Hr o eq_refl). repeat split; assumption.
  - exists (mock_data asin), w', gets.
    repeat split; try assumption. apply mock_price_nonneg.
Qed.

(** An observation found by the loop was made at one of the locators. *)
Lemma scrape_urls_origin (asin : string) (urls : list string) (w w' : World) (o : Observation) :
  scrape_urls asin urls w = (Ok (Some o), w') ->
  exists u, In u urls /\ locator_outcome asin u (web w u) = Some o.
Proof.
  revert w. induction urls as [|u urls IH]; intros w; [discriminate|].
  cbn [scrape_urls]. unfold bind at 1. rewrite try_attempt.
  destruct (locator_outcome asin u (web w u)) as [o'|] eqn:E.
  - intros [= -> _]. exists u. split; [now left|exact E].
  - intros H. destruct (IH _ H) as (x & Hx & Hout).
    exists x. split; [now right|exact Hout].
Qed.

(** An infinite price comes from a page. *)
Lemma infinite_price_origin (asin : string) (w w' : World) (o : Observation) :
  scrape_amazon_price asin w = (Ok o, w') ->
  price o = Double.Infinity ->
  exists u response soup,
    In u (urls_to_try asin) /\ web w u = inr response /\
    content response = Some soup /\
    extract_price soup price_selectors = Some Double.Infinity.
Proof.
  rewrite scrape_amazon_price_unfold.
  destruct (scrape_urls asin (urls_to_try asin) (logged w (EvScrape asin)))
    as [[[o'|]|e] w1] eqn:E; [| |discriminate].
  - intros [= -> _] Hinf.
    destruct (scrape_urls_origin _ _ _ _ _ E) as (u & Hu & Hout).
    cbn [logged web] in Hout. unfold locator_outcome in Hout.
    destruct (web w u) as [e|response] eqn:Hweb; [discriminate|].
    destruct (status_code response =? 503); [discriminate|].
    destruct ((400 <=? status_code response) && (status_code response <? 600));
      [discriminate|].
    destruct (content response) as [soup|] eqn:Hc; [|discriminate].
    destruct (extract_price soup price_selectors) as [p|] eqn:Hp; [|discriminate].
    injection Hout as <-. cbn [price] in Hinf. subst p.
    exists u, response, soup. auto.
  - intros [= <- _] Hinf. vm_compute in Hinf. discriminate.
Qed.

End ExtractorFacts.

(** ** The observation store *)

Section StoreFacts.

Lemma insert_desc_perm (r : Row) (l : list Row) :
  Permutation (insert_desc r l) (r :: l).
Proof.
  induction l as [|x l IH]; simpl; [reflexivity|].
  destruct (timestamp x <=? timestamp r); [reflexivity|].
  rewrite IH. apply perm_swap.
Qed.

Lemma order_by_perm (rows : list Row) :
  Permutation (order_by_timestamp_desc rows) rows.
Proof.
  induction rows as [|r rows IH]; simpl; [reflexivity|].
  rewrite insert_desc_perm. now constructor.
Qed.

Lemma insert_desc_sorted (r : Row) (l : list Row) :
  newest_first l -> newest_first (insert_desc r l).
Proof.
  unfold newest_first. induction 1 as [|x l Hl IH Hx]; simpl.
  - repeat constructor.
  - destruct (timestamp x <=? timestamp r) eqn:E.
    + apply Z.leb_le in E. constructor; [now constructor|].
      constructor; [exact E|].
      eapply Forall_impl; [|exact Hx]. simpl. intros; lia.
    + apply Z.leb_gt in E. constructor; [exact IH|].
      eapply Permutation_Forall; [symmetry; apply insert_desc_perm|].
      constructor; [lia|exact Hx].
Qed.

Lemma order_by_sorted (rows : list Row) :
  newest_first (order_by_timestamp_desc rows).
Proof.
  induction rows as [|r rows IH]; simpl; [constructor|].
  now apply insert_desc_sorted.
Qed.

Lemma sql_days_ago_representable (now days : Z) :
  window_representable now days -> sql_days_ago now days = Some (now - days * 86400).
Proof.
  intros [[H0 H1] [H2 H3]]. unfold sql_days_ago.
  apply Z.ltb_ge in H0. apply Z.leb_gt in H1. apply Z.leb_le in H2, H3.
  now rewrite H0, H1, H2, H3.
Qed.

Lemma sql_days_ago_none (now days : Z) :
  sql_days_ago now days = None <-> days < 0 \/ ~ window_representable now days.
Proof.
  unfold sql_days_ago, window_representable.
  destruct (Z.ltb_spec days 0); [split; [now left|reflexivity]|].
  destruct (Z.leb_spec 5373485 days); [split; [right; lia|reflexivity]|].
  destruct (Z.leb_spec calendar_start (now - days * 86400));
    destruct (Z.leb_spec (now - days * 86400) calendar_end); cbn [andb];
    split; try discriminate; try reflexivity; try (right; lia).
  all: intros [Hn|Hn]; [lia|elim Hn; lia].
Qed.

Lemma sql_days_ago_some (now days c : Z) :
  sql_days_ago now days = Some c ->
  c = now - days * 86400 /\ window_representable now days.
Proof.
  unfold sql_days_ago, window_representable.
  destruct (Z.ltb_spec days 0); [discriminate|].
  destruct (Z.leb_spec 5373485 days); [discriminate|].
  destruct (Z.leb_spec calendar_start (now - days * 86400));
    destruct (Z.leb_spec (now - days * 86400) calendar_end); cbn [andb];
    try discriminate.
  intros [= <-]. lia.
Qed.

(** On rows that are not from the future, the WHERE clause selects the
    observations of the identifier within the trailing window, for a
    negative number of days and for every window SQLite can form. *)
Lemma where_clause_window (asin : string) (now days : Z) (r : Row) :
  timestamp r <= now ->
  days < 0 \/ window_representable now days ->
  where_clause asin (sql_days_ago now days) r
  = String.eqb (row_asin r) asin && in_window now days (timestamp r).
Proof.
  intros H [Hneg|Hrep]; unfold where_clause, in_window; f_equal.
  - unfold sql_days_ago. apply Z.ltb_lt in Hneg. rewrite Hneg.
    apply Z.ltb_lt in Hneg. symmetry. apply andb_false_iff. left.
    apply Z.leb_gt. lia.
  - rewrite (sql_days_ago_representable now days Hrep).
    apply Z.leb_le in H. now rewrite H, andb_true_r.
Qed.

Lemma filter_ext_Forall {A} (f g : A -> bool) (P : A -> Prop) (l : list A) :
  Forall P l -> (forall x, P x -> f x = g x) -> filter f l = filter g l.
Proof.
  intros Hl Hfg. induction Hl as [|x l Hx Hl IH]; simpl; [reflexivity|].
  now rewrite (Hfg x Hx), IH.
Qed.

Lemma select_history_perm (w : World) (asin : string) (days : Z) :
  no_future_rows w ->
  days < 0 \/ window_representable (clock w) days ->
  Permutation (select_history (db w) (clock w) asin days)
              (observations_in_window (db w) (clock w) asin days).
Proof.
  intros Hwf Hdays. unfold select_history, observations_in_window.
  rewrite order_by_perm.
  erewrite filter_ext_Forall; [reflexivity|exact Hwf|].
  intros r Hr. now apply where_clause_window.
Qed.

Lemma py_min_is_min (first : double) (rest : list double) :
  is_min (py_min first rest) (first :: rest).
Proof.
  unfold py_min. revert first. induction rest as [|x rest IH]; intros first; simpl.
  - split; [now left|]. intros y [<-|[]]. apply le_refl.
  - destruct (Double.ltb x first) eqn:E.
    + apply ltb_true_le in E. destruct (IH x) as [Hin Hle]. split.
      * destruct Hin as [<-|Hin]; [right; now left|right; now right].
      * intros y [<-|[<-|Hy]].
        -- apply le_trans with x; [apply Hle; now left|exact E].
        -- apply Hle. now left.
        -- apply Hle. now right.
    + apply ltb_false_le in E. destruct (IH first) as [Hin Hle]. split.
      * destruct Hin as [<-|Hin]; [now left|right; now right].
      * intros y [<-|[<-|Hy]].
        -- apply Hle. now left.
        -- apply le_trans with first; [apply Hle; now left|exact E].
        -- apply Hle. now right.
Qed.

Lemma py_max_is_max (first : double) (rest : list double) :
  is_max (py_max first rest) (first :: rest).
Proof.
  unfold py_max. revert first. induction rest as [|x rest IH]; intros first; simpl.
  - split; [now left|]. intros y [<-|[]]. apply le_refl.
  - destruct (Double.ltb first x) eqn:E.
    + apply ltb_true_le in E. destruct (IH x) as [Hin Hle]. split.
      * destruct Hin as [<-|Hin]; [right; now left|right; now right].
      * intros y [<-|[<-|Hy]].
        -- apply le_trans with x; [exact E|apply Hle; now left].
        -- apply Hle. now left.
        -- apply Hle. now right.
    + apply ltb_false_le in E. destruct (IH first) as [Hin Hle]. split.
      * destruct Hin as [<-|Hin]; [now left|right; now right].
      * intros y [<-|[<-|Hy]].
        -- apply Hle. now left.
        -- apply le_trans with first; [exact E|apply Hle; now left].
        -- apply Hle. now right.
Qed.

(** The query as a function of the selected rows. *)
Lemma get_price_history_from_db_unfold (asin : string) (days : Z) (w : World) :
  get_price_history_from_db asin days w =
  (Ok match select_history (db w) (clock w) asin days with
      | [] => None
      | first :: rest =>
          Some {| history_asin := asin;
                  history_title := row_title first;
                  price_history := map entry_of (first :: rest);
                  lowest_price := py_min (row_price first) (map row_price rest);
                  highest_price := py_max (row_price first) (map row_price rest) |}
      end,
   logged w (EvSelect asin days)).
Proof.
  unfold get_price_history_from_db, bind, log, world, logged.
  cbn [db clock]. now destruct (select_history (db w) (clock w) asin days).
Qed.

Lemma save_price_to_db_unfold (o : Observation) (w : World) :
  save_price_to_db o w =
  (Ok tt, {| web := web w; elapse := elapse w;
             db := db w ++ [new_row (db w) (clock w) o];
             clock := clock w;
             trace := trace w ++ [EvInsert (new_row (db w) (clock w) o)] |}).
Proof. reflexivity. Qed.

End StoreFacts.

(** ** Claims about the extractor *)

Lemma scrape_first_locator (asin : string) (w : World) (soup : BeautifulSoup) (p : double) :
  serves w ("https://www.amazon.com/dp/" ++ asin) soup ->
  extract_price soup price_selectors = Some p ->
  fst (scrape_amazon_price asin w)
  = Ok {| asin := asin;
          title := title_or_default (extract_title soup title_selectors) asin;
          price := p;
          currency := "USD";
          url := "https://www.amazon.com/dp/" ++ asin |}.
Proof.
  intros Hserves Hp. rewrite scrape_amazon_price_unfold. unfold urls_to_try.
  erewrite scrape_urls_first; [reflexivity|].
  now apply (locator_outcome_serves asin _ (logged w (EvScrape asin)) soup p).
Qed.

Lemma get_current_price_unfold (asin : string) (w w1 : World) (o : Observation) :
  scrape_amazon_price asin w = (Ok o, w1) ->
  get_current_price asin w =
  (Ok {| response_asin := asin_of o;
         response_title := title o;
         current_price := price o;
         response_currency := currency o;
         response_url := url_of o;
         last_updated := clock w1 |},
   {| web := web w1; elapse := elapse w1;
      db := db w1 ++ [new_row (db w1) (clock w1) o];
      clock := clock w1;
      trace := trace w1 ++ [EvInsert (new_row (db w1) (clock w1) o)] |}).
Proof.
  intros H. unfold get_current_price. unfold bind at 1. rewrite H.
  reflexivity.
Qed.

(** C1, as the claim states it, fails: on a page whose price element holds
    a number of four hundred digits, [float] returns infinity, and the price
    field of the answer is not a number. *)
Lemma get_current_price_number_counterexample :
  ~ (forall (asin : string) (w : World),
        exists (body : PriceResponse) (w' : World) (q : Q),
          get_current_price asin w = (Ok body, w') /\
          current_price body = Double.Finite q /\
          (0 <= q)%Q).
Proof.
  intros H.
  destruct (H "B00TEST" (world_of (online page_with_huge_price) [] 0))
    as (body & w' & q & Hget & Hq & _).
  assert (Hserves : serves (world_of (online page_with_huge_price) [] 0)
                           ("https://www.amazon.com/dp/" ++ "B00TEST") page_with_huge_price).
  { exists {| status_code := 200; content := Some page_with_huge_price |}.
    split; [reflexivity|]. split; [discriminate|]. split; [left; reflexivity|reflexivity]. }
  assert (Hprice : extract_price page_with_huge_price price_selectors = Some Double.Infinity)
    by (vm_compute; reflexivity).
  pose proof (scrape_first_locator "B00TEST" _ page_with_huge_price _ Hserves Hprice) as Hrun.
  destruct (scrape_amazon_price "B00TEST" (world_of (online page_with_huge_price) [] 0))
    as [r w1] eqn:E.
  cbn [fst] in Hrun. subst r.
  rewrite (get_current_price_unfold _ _ _ _ E) in Hget.
  injection Hget as <- _. cbn [current_price price] in Hq. discriminate Hq.
Qed.

(** C1, amended.  For every identifier and whatever the remote site does,
    the extractor returns an observation (no exception of a fetch, of the
    parser or of the extraction leaves it) and get-current-price answers
    200 with a price field that is never negative: a number that is zero or
    more, or infinity.  It is infinity only when a page served by one of
    the locators holds a price text beyond the range of doubles. *)
Theorem get_current_price_always_succeeds (asin : string) (w : World) :
  (exists (o : Observation) (w1 : World),
      scrape_amazon_price asin w = (Ok o, w1) /\ Double.nonneg (price o)) /\
  (exists (body : PriceResponse) (w' : World),
      get_current_price asin w = (Ok body, w') /\
      handle (GetPrice asin) w = (Ok (PriceBody body), w') /\
      http_status (fst (handle (GetPrice asin) w)) = 200 /\
      response_asin body = asin /\
      Double.nonneg (current_price body) /\
      (current_price body = Double.Infinity ->
       exists u response soup,
         In u (urls_to_try asin) /\ web w u = inr response /\
         content response = Some soup /\
         extract_price soup price_selectors = Some Double.Infinity)).
Proof.
  destruct (scrape_amazon_price_returns asin w)
    as (o & w1 & gets & Hrun & _ & _ & _ & _ & _ & Hasin & Hprice).
  split; [now exists o, w1|].
  pose proof (get_current_price_unfold asin w w1 o Hrun) as Hget.
  eexists; eexists. split; [exact Hget|].
  assert (Hh : forall x y, get_current_price asin w = (Ok x, y) ->
                           handle (GetPrice asin) w = (Ok (PriceBody x), y)).
  { intros x y E. unfold handle, fmap, bind. now rewrite E. }
  rewrite (Hh _ _ Hget). cbn [fst http_status response_asin current_price].
  split; [reflexivity|]. split; [reflexivity|]. split; [exact Hasin|].
  split; [exact Hprice|]. now apply (infinite_price_origin asin w w1 o).
Qed.

Lemma get_current_price_always_succeeds_witness :
  exists u response soup,
    In u (urls_to_try "B00TEST") /\
    web (world_of (online page_with_huge_price) [] 0) u = inr response /\
    content response = Some soup /\
    extract_price soup price_selectors = Some Double.Infinity.
Proof.
  destruct (get_current_price_always_succeeds "B00TEST"
              (world_of (online page_with_huge_price) [] 0))
    as (_ & body & w' & Hget & _ & _ & _ & _ & Hinf).
  apply Hinf.
  assert (Hserves : serves (world_of (online page_with_huge_price) [] 0)
                           ("https://www.amazon.com/dp/" ++ "B00TEST") page_with_huge_price).
  { exists {| status_code := 200; content := Some page_with_huge_price |}.
    split; [reflexivity|]. split; [discriminate|]. split; [left; reflexivity|reflexivity]. }
  assert (Hprice : extract_price page_with_huge_price price_selectors = Some Double.Infinity)
    by (vm_compute; reflexivity).
  pose proof (scrape_first_locator "B00TEST" _ page_with_huge_price _ Hserves Hprice) as Hrun.
  destruct (scrape_amazon_price "B00TEST" (world_of (online page_with_huge_price) [] 0))
    as [r w1] eqn:E.
  cbn [fst] in Hrun. subst r.
  rewrite (get_current_price_unfold _ _ _ _ E) in Hget.
  injection Hget as <- _. reflexivity.
Defined.

(** C2.  If the fetch of every locator fails (the request raises, or the
    status is a 4xx or 5xx one), the extractor returns the placeholder
    observation: the fixed price 99.99, a title that carries the marker
    "Mock" and the identifier, and the first locator of the list as source;
    get-current-price then answers 200 with that title and price. *)
Theorem placeholder_when_all_fetches_fail (asin : string) (w : World) :
  (forall u, In u (urls_to_try asin) -> fetch_fails (web w u)) ->
  fst (scrape_amazon_price asin w) = Ok (mock_data asin) /\
  price (mock_data asin) = Double.of_Q 99.99 /\
  contains "Mock" (title (mock_data asin)) /\
  contains asin (title (mock_data asin)) /\
  hd_error (urls_to_try asin) = Some (url_of (mock_data asin)) /\
  exists (body : PriceResponse),
    fst (get_current_price asin w) = Ok body /\
    http_status (fst (get_current_price asin w)) = 200 /\
    current_price body = Double.of_Q 99.99 /\
    response_title body = title (mock_data asin) /\
    response_url body = url_of (mock_data asin).
Proof.
  intros Hfail.
  assert (Hrun : fst (scrape_amazon_price asin w) = Ok (mock_data asin)).
  { rewrite scrape_amazon_price_unfold.
    pose proof (scrape_urls_all_fail asin (urls_to_try asin) (logged w (EvScrape asin))) as H.
    destruct (scrape_urls asin (urls_to_try asin) (logged w (EvScrape asin)))
      as [r w'] eqn:E.
    simpl in H. rewrite H; [reflexivity|].
    intros u Hu. apply locator_outcome_fails. now apply Hfail. }
  split; [exact Hrun|]. split; [reflexivity|].
  split; [now exists "", (" Product " ++ asin ++ " (Scraping blocked - need proxy)")|].
  split; [now exists "Mock Product ", " (Scraping blocked - need proxy)"|].
  split; [reflexivity|].
  destruct (scrape_amazon_price asin w) as [r w1] eqn:E. simpl in Hrun. subst r.
  rewrite (get_current_price_unfold asin w w1 _ E). simpl.
  eexists. repeat split.
Qed.

Lemma placeholder_when_all_fetches_fail_witness :
  (forall u, In u (urls_to_try "B00TEST") -> fetch_fails (web (world_of offline [] 0) u)) /\
  fst (scrape_amazon_price "B00TEST" (world_of offline [] 0)) = Ok (mock_data "B00TEST").
Proof.
  assert (H : forall u, In u (urls_to_try "B00TEST") ->
                        fetch_fails (web (world_of offline [] 0) u))
    by (intros u _; exact I).
  split; [exact H|].
  exact (proj1 (placeholder_when_all_fetches_fail "B00TEST" (world_of offline [] 0) H)).
Defined.



(** C6.  Precedence among the price selectors: when two selectors of the
    list both match elements that give a number, the price is the one of
    the earliest selector of the list that gives a number, which is the
    earlier of the two or one listed before it, and is the earlier of the
    two when no selector before it gives a number; within that selector it
    is the number of the first element that gives one; the extractor
    returns that price. *)
Theorem price_selector_precedence
        (soup : BeautifulSoup) (i j : nat) (si sj : string) (pi pj : double) :
  (i < j)%nat ->
  nth_error price_selectors i = Some si ->
  nth_error price_selectors j = Some sj ->
  first_price (select soup si) = Some pi ->
  first_price (select soup sj) = Some pj ->
  exists (k : nat) (sk : string) (p : double),
    (k <= i)%nat /\ nth_error price_selectors k = Some sk /\
    first_price (select soup sk) = Some p /\
    (forall k' sk', (k' < k)%nat -> nth_error price_selectors k' = Some sk' ->
                    first_price (select soup sk') = None) /\
    extract_price soup price_selectors = Some p /\
    (k = i -> p = pi) /\
    (forall asin w, serves w ("https://www.amazon.com/dp/" ++ asin) soup ->
                    exists o, fst (scrape_amazon_price asin w) = Ok o /\ price o = p) /\
    (forall before e after q,
        select soup sk = (before ++ e :: after)%list ->
        (forall x, In x before -> price_of_text (get_text x) = None) ->
        price_of_text (get_text e) = Some q ->
        p = q).
Proof.
  intros Hij Hi Hj Hpi Hpj.
  destruct (earliest_yielding soup price_selectors i si pi Hi Hpi)
    as (k & sk & p & Hle & Hk & Hp & Hbefore).
  exists k, sk, p.
  assert (He : extract_price soup price_selectors = Some p)
    by (eapply extract_price_earliest; eassumption).
  repeat split; try assumption.
  - intros ->. congruence.
  - intros asin w Hserves. eexists. split.
    + apply (scrape_first_locator asin w soup p Hserves He).
    + reflexivity.
  - intros before e after q Hsel Hnone Hq.
    rewrite Hsel, (first_price_skips before e after q Hnone Hq) in Hp.
    now injection Hp.
Qed.

Lemma price_selector_precedence_witness :
  exists (k : nat) (sk : string) (p : double),
    (k <= 3)%nat /\ nth_error price_selectors k = Some sk /\
    first_price (select page_with_two_prices sk) = Some p /\
    (forall k' sk', (k' < k)%nat -> nth_error price_selectors k' = Some sk' ->
                    first_price (select page_with_two_prices sk') = None) /\
    extract_price page_with_two_prices price_selectors = Some p /\
    (k = 3%nat -> p = Double.of_Q 12.50) /\
    (forall asin w, serves w ("https://www.amazon.com/dp/" ++ asin) page_with_two_prices ->
                    exists o, fst (scrape_amazon_price asin w) = Ok o /\ price o = p) /\
    (forall before e after q,
        select page_with_two_prices sk = (before ++ e :: after)%list ->
        (forall x, In x before -> price_of_text (get_text x) = None) ->
        price_of_text (get_text e) = Some q ->
        p = q).
Proof.
  apply (price_selector_precedence page_with_two_prices 3 6
           "span#priceblock_ourprice" ".a-price .a-offscreen" (Double.of_Q 12.50) (Double.of_Q 5.00));
    [lia|reflexivity|reflexivity|reflexivity|reflexivity].
Defined.

(** C7, as the claim states it, fails: on a page where [#productTitle]
    matches an element without text and [h1.a-size-large] matches an
    element with the text "Widget", the title is not "Widget" but the
    synthetic label. *)
Lemma title_first_nonempty_counterexample :
  ~ (forall (soup : BeautifulSoup) (asin : string) (i j : nat) (si sj : string) (e : Tag),
        (i < j)%nat ->
        nth_error title_selectors i = Some si ->
        nth_error title_selectors j = Some sj ->
        select soup si <> [] ->
        (forall x, In x (select soup si) -> Text.strip (get_text x) = "") ->
        (forall k sk, (k < j)%nat -> k <> i -> nth_error title_selectors k = Some sk ->
                      select soup sk = []) ->
        select_one soup sj = Some e ->
        Text.strip (get_text e) <> "" ->
        title_or_default (extract_title soup title_selectors) asin
        = Text.strip (get_text e)).
Proof.
  intros H.
  specialize (H page_with_blank_title "B00TEST" 0%nat 1%nat
                "#productTitle" "h1.a-size-large" {| get_text := "Widget" |}).
  assert (E : title_or_default (extract_title page_with_blank_title title_selectors) "B00TEST"
              = "Widget").
  { apply H; [lia|reflexivity|reflexivity|discriminate| | |reflexivity|discriminate].
    - intros x [<-|[]]. reflexivity.
    - intros k sk Hk Hne. lia. }
  discriminate E.
Qed.

(** C7, amended.  The title selectors are tried in the order of the list
    and the first one that matches an element ends the search: the title is
    the stripped text of that element, or the synthetic label
    "Product <identifier>" when that text is empty; the synthetic label is
    also the title when no selector matches.  A later selector is looked at
    only when no earlier one matches any element.  The extractor returns
    this title whenever it finds a price. *)
Theorem title_first_match_wins (soup : BeautifulSoup) (asin : string) :
  (forall i si e,
      nth_error title_selectors i = Some si ->
      select_one soup si = Some e ->
      (forall k sk, (k < i)%nat -> nth_error title_selectors k = Some sk ->
                    select_one soup sk = None) ->
      title_or_default (extract_title soup title_selectors) asin
      = if Text.is_empty (Text.strip (get_text e))
        then "Product " ++ asin
        else Text.strip (get_text e)) /\
  ((forall s, In s title_selectors -> select_one soup s = None) ->
   title_or_default (extract_title soup title_selectors) asin = "Product " ++ asin) /\
  (forall w p,
      serves w ("https://www.amazon.com/dp/" ++ asin) soup ->
      extract_price soup price_selectors = Some p ->
      exists o, fst (scrape_amazon_price asin w) = Ok o /\
                title o = title_or_default (extract_title soup title_selectors) asin).
Proof.
  split; [|split].
  - intros i si e Hi He Hbefore.
    rewrite (extract_title_earliest soup title_selectors i si e Hi He Hbefore).
    now destruct (Text.strip (get_text e)).
  - intros Hnone. now rewrite (extract_title_none soup title_selectors Hnone).
  - intros w p Hserves Hp. eexists. split.
    + apply (scrape_first_locator asin w soup p Hserves Hp).
    + reflexivity.
Qed.

Lemma title_first_match_wins_witness :
  nth_error title_selectors 0 = Some "#productTitle" /\
  select_one page_with_blank_title "#productTitle" = Some {| get_text := "" |} /\
  title_or_default (extract_title page_with_blank_title title_selectors) "B00TEST"
  = "Product B00TEST".
Proof.
  split; [reflexivity|]. split; [reflexivity|].
  apply (proj1 (title_first_match_wins page_with_blank_title "B00TEST")
           0%nat "#productTitle" {| get_text := "" |});
    [reflexivity|reflexivity|intros k sk Hk; lia].
Defined.

(** ** Claims about the store *)

Section RoundTrip.

Lemma filter_none {A} (f : A -> bool) (l : list A) :
  (forall x, In x l -> f x = false) -> filter f l = [].
Proof.
  induction l as [|x l IH]; intros H; simpl; [reflexivity|].
  rewrite (H x) by now left. apply IH. intros y Hy. apply H. now right.
Qed.

Lemma filter_all {A} (f : A -> bool) (l : list A) :
  (forall x, In x l -> f x = true) -> filter f l = l.
Proof.
  induction l as [|x l IH]; intros H; simpl; [reflexivity|].
  rewrite (H x) by now left. f_equal. apply IH. intros y Hy. apply H. now right.
Qed.

(** An identifier without rows in the store has nothing to select. *)
Lemma select_history_unknown (rows : list Row) (now : Z) (asin : string) (days : Z) :
  (forall r, In r rows -> row_asin r <> asin) ->
  select_history rows now asin days = [].
Proof.
  intros H. unfold select_history. rewrite filter_none; [reflexivity|].
  intros r Hr. unfold where_clause.
  apply H in Hr. apply String.eqb_neq in Hr. now rewrite Hr.
Qed.

Lemma is_min_perm (m : double) (l l' : list double) :
  Permutation l l' -> is_min m l -> is_min m l'.
Proof.
  intros P [Hin Hle]. split.
  - eapply Permutation_in; eassumption.
  - intros x Hx. apply Hle. eapply Permutation_in; [symmetry|]; eassumption.
Qed.

Lemma is_max_perm (m : double) (l l' : list double) :
  Permutation l l' -> is_max m l -> is_max m l'.
Proof.
  intros P [Hin Hle]. split.
  - eapply Permutation_in; eassumption.
  - intros x Hx. apply Hle. eapply Permutation_in; [symmetry|]; eassumption.
Qed.

(** What a run of appends leaves behind. *)
Lemma save_all_effect (script : list (N * Observation)) (w : World) :
  exists (added : list Row) (w' : World),
    save_all script w = (Ok tt, w') /\
    db w' = (db w ++ added)%list /\
    clock w <= clock w' /\
    map row_price added = map (fun s => price (snd s)) script /\
    map row_asin added = map (fun s => asin_of (snd s)) script /\
    Forall (fun r => clock w <= timestamp r <= clock w') added.
Proof.
  revert w. induction script as [|[pause o] script IH]; intros w.
  - exists [], w. cbn [save_all ret map]. rewrite app_nil_r.
    repeat split; try reflexivity; try lia. constructor.
  - cbn [save_all]. unfold bind at 1. unfold sleep at 1. cbv beta iota.
    unfold bind at 1. rewrite save_price_to_db_unfold.
    cbn [web elapse db clock trace].
    match goal with
    | |- context [save_all script ?w1] =>
        destruct (IH w1) as (added & w' & Hrun & Hdb & Hclk & Hprices & Hasins & Hts)
    end.
    cbn [db clock] in *.
    eexists (_ :: added), w'. rewrite Hrun.
    split; [reflexivity|]. split; [rewrite Hdb, <- app_assoc; reflexivity|].
    split; [lia|]. cbn [map snd new_row row_price row_asin].
    split; [now rewrite Hprices|]. split; [now rewrite Hasins|].
    constructor.
    + cbn [timestamp new_row]. lia.
    + eapply Forall_impl; [|exact Hts]. cbv beta. intros; lia.
Qed.

End RoundTrip.

Lemma query_result_of_rows (asin : string) (days : Z) (w : World) (first : Row) (rest : list Row) :
  select_history (db w) (clock w) asin days = first :: rest ->
  exists h : PriceHistoryResponse,
    fst (get_price_history_from_db asin days w) = Ok (Some h) /\
    history_asin h = asin /\
    history_title h = row_title first /\
    price_history h = map entry_of (first :: rest) /\
    is_min (lowest_price h) (map row_price (first :: rest)) /\
    is_max (highest_price h) (map row_price (first :: rest)).
Proof.
  intros E. rewrite get_price_history_from_db_unfold, E. cbn [fst].
  eexists. split; [reflexivity|]. cbn [history_asin history_title price_history
                                       lowest_price highest_price].
  repeat split; try reflexivity.
  - apply (py_min_is_min (row_price first) (map row_price rest)).
  - apply (py_min_is_min (row_price first) (map row_price rest)).
  - apply (py_max_is_max (row_price first) (map row_price rest)).
  - apply (py_max_is_max (row_price first) (map row_price rest)).
Qed.

Lemma appended_rows_selected (w : World) (script : list (N * Observation)) (pause : N)
      (asin : string) (days : Z) :
  (forall r, In r (db w) -> row_asin r <> asin) ->
  (forall s, In s script -> asin_of (snd s) = asin) ->
  window_representable (clock (snd ((save_all script;; sleep pause) w))) days ->
  clock (snd ((save_all script;; sleep pause) w)) - days * 86400 <= clock w ->
  exists added : list Row,
    select_history (db (snd ((save_all script;; sleep pause) w)))
                   (clock (snd ((save_all script;; sleep pause) w))) asin days
    = order_by_timestamp_desc added /\
    map row_price added = map (fun s => price (snd s)) script.
Proof.
  intros Hnew Hscript.
  destruct (save_all_effect script w)
    as (added & w1 & Hrun & Hdb & Hclk & Hprices & Hasins & Hts).
  unfold bind. rewrite Hrun. cbn [sleep snd db clock]. intros Hrep Hcover.
  exists added. split; [|exact Hprices].
  unfold select_history. f_equal. rewrite Hdb, filter_app.
  rewrite (sql_days_ago_representable _ _ Hrep), filter_none, filter_all; [reflexivity| |].
  - intros r Hr. unfold where_clause.
    assert (Ha : row_asin r = asin).
    { apply (in_map row_asin) in Hr. rewrite Hasins in Hr.
      apply in_map_iff in Hr as (s & <- & Hs). now apply Hscript. }
    rewrite Ha, String.eqb_refl. cbn [andb].
    rewrite Forall_forall in Hts. specialize (Hts r Hr). apply Z.leb_le. lia.
  - intros r Hr. unfold where_clause.
    apply Hnew in Hr. apply String.eqb_neq in Hr. now rewrite Hr.
Qed.

(** C3, as the claim states it, fails: a window of 2500000 days reaches
    back beyond SQLite's calendar, the date the rows are compared with is
    NULL, and the query returns nothing although three observations of the
    identifier lie within the window. *)
Lemma store_query_window_counterexample :
  ~ (forall (asin : string) (days : Z) (w : World),
        no_future_rows w ->
        Permutation (select_history (db w) (clock w) asin days)
                    (observations_in_window (db w) (clock w) asin days) /\
        (observations_in_window (db w) (clock w) asin days <> [] ->
         fst (get_price_history_from_db asin days w) <> Ok None)).
Proof.
  intros H.
  assert (Hwf : no_future_rows sample_world) by (repeat constructor; cbn; lia).
  destruct (H "B00TEST" 2500000 sample_world Hwf) as [Hperm _].
  apply Permutation_length in Hperm. vm_compute in Hperm. discriminate Hperm.
Qed.

(** C3, amended.  On a store without rows from the future, and for a
    number of days that is negative or for which SQLite can form the date
    that many days ago (fewer than 5373485 days, and a date within its
    calendar, which starts in the year 4714 BC), the query returns the
    observations of the identifier captured within the trailing window,
    each once and no other row, newest first; the title is that of the
    first row, the lowest and highest prices are the minimum and the
    maximum of the returned prices; when no observation is in the window
    the result is the no-data value [None].  For every other number of
    days the query returns the no-data value whatever the store holds.  In
    particular, after N appends for an identifier that had no row, a query
    whose window SQLite can form and which reaches back to the first append
    returns N rows with the N prices. *)
Theorem store_query_returns_window :
  (forall (asin : string) (days : Z) (w : World),
      no_future_rows w ->
      days < 0 \/ window_representable (clock w) days ->
      let rows := select_history (db w) (clock w) asin days in
      Permutation rows (observations_in_window (db w) (clock w) asin days) /\
      newest_first rows /\
      (observations_in_window (db w) (clock w) asin days = [] ->
       fst (get_price_history_from_db asin days w) = Ok None) /\
      (forall first rest, rows = first :: rest ->
         exists h : PriceHistoryResponse,
           fst (get_price_history_from_db asin days w) = Ok (Some h) /\
           history_asin h = asin /\
           history_title h = row_title first /\
           price_history h = map entry_of rows /\
           is_min (lowest_price h) (map row_price rows) /\
           is_max (highest_price h) (map row_price rows))) /\
  (forall (asin : string) (days : Z) (w : World),
      0 <= days ->
      ~ window_representable (clock w) days ->
      select_history (db w) (clock w) asin days = [] /\
      fst (get_price_history_from_db asin days w) = Ok None) /\
  (forall (w : World) (script : list (N * Observation)) (pause : N)
          (asin : string) (days : Z),
      (forall r, In r (db w) -> row_asin r <> asin) ->
      (forall s, In s script -> asin_of (snd s) = asin) ->
      let w2 := snd ((save_all script;; sleep pause) w) in
      window_representable (clock w2) days ->
      clock w2 - days * 86400 <= clock w ->
      let rows := select_history (db w2) (clock w2) asin days in
      List.length rows = List.length script /\
      Permutation (map row_price rows) (map (fun s => price (snd s)) script) /\
      newest_first rows /\
      (script <> [] ->
       exists h : PriceHistoryResponse,
         fst (get_price_history_from_db asin days w2) = Ok (Some h) /\
         price_history h = map entry_of rows /\
         is_min (lowest_price h) (map (fun s => price (snd s)) script) /\
         is_max (highest_price h) (map (fun s => price (snd s)) script))).
Proof.
  split; [|split].
  - intros asin days w Hwf Hdays rows.
    pose proof (select_history_perm w asin days Hwf Hdays) as Hperm. fold rows in Hperm.
    split; [exact Hperm|]. split; [apply order_by_sorted|]. split.
    + intros Hnone. rewrite Hnone in Hperm.
      apply Permutation_sym, Permutation_nil in Hperm.
      rewrite get_price_history_from_db_unfold. fold rows. now rewrite Hperm.
    + intros first rest E. rewrite E. now apply query_result_of_rows.
  - intros asin days w Hdays Hrep.
    assert (Hnone : sql_days_ago (clock w) days = None)
      by (apply sql_days_ago_none; now right).
    assert (E : select_history (db w) (clock w) asin days = []).
    { unfold select_history. rewrite Hnone, filter_none; [reflexivity|].
      intros r _. unfold where_clause. apply andb_false_r. }
    split; [exact E|]. now rewrite get_price_history_from_db_unfold, E.
  - intros w script pause asin days Hnew Hscript w2 Hrep Hcover rows.
    destruct (appended_rows_selected w script pause asin days Hnew Hscript Hrep Hcover)
      as (added & Hrows & Hprices).
    fold w2 in Hrows. fold rows in Hrows.
    assert (Hperm : Permutation (map row_price rows) (map (fun s => price (snd s)) script)).
    { rewrite Hrows, <- Hprices. apply Permutation_map, order_by_perm. }
    split.
    { rewrite <- (length_map row_price rows), (Permutation_length Hperm).
      apply length_map. }
    split; [exact Hperm|]. split; [rewrite Hrows; apply order_by_sorted|].
    intros Hne. destruct rows as [|first rest] eqn:E.
    + cbn [map] in Hperm. apply Permutation_nil in Hperm.
      destruct script; [congruence|discriminate].
    + destruct (query_result_of_rows asin days w2 first rest E)
        as (h & Hq & _ & _ & Hh & Hmin & Hmax).
      exists h. split; [exact Hq|]. split; [exact Hh|].
      split; [eapply is_min_perm|eapply is_max_perm]; eassumption.
Qed.

Lemma store_query_returns_window_witness :
  no_future_rows sample_world /\
  (30 < 0 \/ window_representable (clock sample_world) 30) /\
  Permutation (select_history (db sample_world) (clock sample_world) "B00TEST" 30)
              (observations_in_window (db sample_world) (clock sample_world) "B00TEST" 30) /\
  map id (select_history (db sample_world) (clock sample_world) "B00TEST" 30) = [4; 2] /\
  (0 <= 2500000 /\ ~ window_representable (clock sample_world) 2500000 /\
   fst (get_price_history_from_db "B00TEST" 2500000 sample_world) = Ok None) /\
  ((forall r, In r (db (world_of offline [] 0)) -> row_asin r <> "B00TEST") /\
   List.length
     (select_history
        (db (snd ((save_all [ (60%N, sample_observation "B00TEST" 12.50);
                              (60%N, sample_observation "B00TEST" 9.99) ];;
                   sleep 5) (world_of offline [] 0))))
        (clock (snd ((save_all [ (60%N, sample_observation "B00TEST" 12.50);
                                 (60%N, sample_observation "B00TEST" 9.99) ];;
                      sleep 5) (world_of offline [] 0))))
        "B00TEST" 1)
   = 2%nat).
Proof.
  assert (Hwf : no_future_rows sample_world)
    by (repeat constructor; cbn; lia).
  assert (Hrep : 30 < 0 \/ window_representable (clock sample_world) 30)
    by (right; unfold window_representable, calendar_start, calendar_end; cbn; lia).
  split; [exact Hwf|]. split; [exact Hrep|].
  split; [exact (proj1 (proj1 store_query_returns_window "B00TEST" 30 sample_world Hwf Hrep))|].
  split; [reflexivity|].
  assert (Hpos : 0 <= 2500000) by lia.
  assert (Hbig : ~ window_representable (clock sample_world) 2500000)
    by (unfold window_representable, calendar_start, calendar_end; cbn; lia).
  split.
  { split; [exact Hpos|]. split; [exact Hbig|].
    exact (proj2 (proj1 (proj2 store_query_returns_window)
                    "B00TEST" 2500000 sample_world Hpos Hbig)). }
  assert (Hnew : forall r, In r (db (world_of offline [] 0)) -> row_asin r <> "B00TEST")
    by (intros r []).
  split; [exact Hnew|].
  refine (proj1 (proj2 (proj2 store_query_returns_window) (world_of offline [] 0)
                   [ (60%N, sample_observation "B00TEST" 12.50);
                     (60%N, sample_observation "B00TEST" 9.99) ]
                   5%N "B00TEST" 1 Hnew _ _ _)).
  - intros s [<-|[<-|[]]]; reflexivity.
  - unfold window_representable, calendar_start, calendar_end. cbn. lia.
  - cbn. lia.
Defined.

(** ** Claims about the request handlers *)

Section HandlerFacts.

Lemma count_scrapes_app (a b : list Event) :
  count_scrapes (a ++ b) = (count_scrapes a + count_scrapes b)%nat.
Proof. unfold count_scrapes. now rewrite filter_app, length_app. Qed.

Lemma count_inserts_app (a b : list Event) :
  count_inserts (a ++ b) = (count_inserts a + count_inserts b)%nat.
Proof. unfold count_inserts. now rewrite filter_app, length_app. Qed.

Lemma count_scrapes_gets (gets : list string) : count_scrapes (map EvGet gets) = 0%nat.
Proof. induction gets as [|u gets IH]; [reflexivity|exact IH]. Qed.

Lemma count_inserts_gets (gets : list string) : count_inserts (map EvGet gets) = 0%nat.
Proof. induction gets as [|u gets IH]; [reflexivity|exact IH]. Qed.

(** Get-history as a function of the rows the query selects. *)
Lemma get_price_history_unfold (asin : string) (days : Z) (w : World) :
  get_price_history asin days w =
  match select_history (db w) (clock w) asin days with
  | [] =>
      match scrape_amazon_price asin (logged w (EvSelect asin days)) with
      | (Ok o, w1) => (Ok (single_entry asin o (clock w1)), appended w1 o)
      | (Raise e, w1) => (Raise e, w1)
      end
  | first :: rest =>
      (Ok {| history_asin := asin;
             history_title := row_title first;
             price_history := map entry_of (first :: rest);
             lowest_price := py_min (row_price first) (map row_price rest);
             highest_price := py_max (row_price first) (map row_price rest) |},
       logged w (EvSelect asin days))
  end.
Proof.
  unfold get_price_history. unfold bind at 1.
  rewrite get_price_history_from_db_unfold.
  destruct (select_history (db w) (clock w) asin days) as [|first rest]; [|reflexivity].
  unfold bind at 1.
  destruct (scrape_amazon_price asin (logged w (EvSelect asin days))) as [[o|e] w1];
    reflexivity.
Qed.

(** The fall-back branch: one call of the extractor, then one insertion. *)
Lemma history_fallback (asin : string) (days : Z) (w : World) :
  select_history (db w) (clock w) asin days = [] ->
  exists (o : Observation) (w1 : World) (gets : list string),
    scrape_amazon_price asin (logged w (EvSelect asin days)) = (Ok o, w1) /\
    get_price_history asin days w = (Ok (single_entry asin o (clock w1)), appended w1 o) /\
    asin_of o = asin /\
    db w1 = db w /\
    clock w <= clock w1 /\
    trace w1 = (trace w ++ [EvSelect asin days; EvScrape asin] ++ map EvGet gets)%list.
Proof.
  intros E. rewrite get_price_history_unfold, E.
  destruct (scrape_amazon_price_returns asin (logged w (EvSelect asin days)))
    as (o & w1 & gets & Hrun & _ & _ & Hdb & Hclk & Htr & Hasin & _).
  exists o, w1, gets. rewrite Hrun. cbn [logged db clock trace] in *.
  repeat split; try assumption.
  rewrite Htr, <- app_assoc. reflexivity.
Qed.

End HandlerFacts.

(** C4.  For an identifier without any row in the store, get-history calls
    the extractor once and then appends once (the log grows by the query,
    one entry of the extractor with its requests, and one insertion, in
    this order), and answers with a history of exactly one entry whose
    price, lowest price and highest price are the price just extracted. *)
Theorem history_fallback_without_observations (asin : string) (days : Z) (w : World) :
  (forall r, In r (db w) -> row_asin r <> asin) ->
  exists (o : Observation) (w1 : World) (gets : list string)
         (body : PriceHistoryResponse) (w' : World),
    scrape_amazon_price asin (logged w (EvSelect asin days)) = (Ok o, w1) /\
    get_price_history asin days w = (Ok body, w') /\
    trace w' = (trace w ++ [EvSelect asin days; EvScrape asin] ++ map EvGet gets
                  ++ [EvInsert (new_row (db w) (clock w1) o)])%list /\
    count_scrapes (trace w') = S (count_scrapes (trace w)) /\
    count_inserts (trace w') = S (count_inserts (trace w)) /\
    db w' = (db w ++ [new_row (db w) (clock w1) o])%list /\
    history_asin body = asin /\
    price_history body = [ {| entry_price := price o; entry_timestamp := clock w' |} ] /\
    lowest_price body = price o /\
    highest_price body = price o.
Proof.
  intros Hnew.
  destruct (history_fallback asin days w (select_history_unknown _ _ _ _ Hnew))
    as (o & w1 & gets & Hrun & Hget & Hasin & Hdb & Hclk & Htr).
  exists o, w1, gets, (single_entry asin o (clock w1)), (appended w1 o).
  assert (Htrace : trace (appended w1 o)
                   = (trace w ++ [EvSelect asin days; EvScrape asin] ++ map EvGet gets
                        ++ [EvInsert (new_row (db w) (clock w1) o)])%list).
  { cbn [appended trace]. rewrite Htr, Hdb, <- !app_assoc. reflexivity. }
  split; [exact Hrun|]. split; [exact Hget|]. split; [exact Htrace|].
  split; [rewrite Htrace, !count_scrapes_app, count_scrapes_gets; cbn; lia|].
  split; [rewrite Htrace, !count_inserts_app, count_inserts_gets; cbn; lia|].
  split; [cbn [appended db]; now rewrite Hdb|].
  repeat split.
Qed.

Lemma history_fallback_without_observations_witness :
  (forall r, In r (db sample_world) -> row_asin r <> "B00NEW") /\
  exists (o : Observation) (w1 : World) (gets : list string)
         (body : PriceHistoryResponse) (w' : World),
    scrape_amazon_price "B00NEW" (logged sample_world (EvSelect "B00NEW" 30)) = (Ok o, w1) /\
    get_price_history "B00NEW" 30 sample_world = (Ok body, w') /\
    trace w' = (trace sample_world ++ [EvSelect "B00NEW" 30; EvScrape "B00NEW"]
                  ++ map EvGet gets
                  ++ [EvInsert (new_row (db sample_world) (clock w1) o)])%list /\
    count_scrapes (trace w') = S (count_scrapes (trace sample_world)) /\
    count_inserts (trace w') = S (count_inserts (trace sample_world)) /\
    db w' = (db sample_world ++ [new_row (db sample_world) (clock w1) o])%list /\
    history_asin body = "B00NEW" /\
    price_history body = [ {| entry_price := price o; entry_timestamp := clock w' |} ] /\
    lowest_price body = price o /\
    highest_price body = price o.
Proof.
  assert (H : forall r, In r (db sample_world) -> row_asin r <> "B00NEW")
    by (intros r [<-|[<-|[<-|[<-|[]]]]]; discriminate).
  split; [exact H|].
  exact (history_fallback_without_observations "B00NEW" 30 sample_world H).
Defined.

(** C8.  The store is append-only: an append adds one row after the rows
    already there, a query and the extractor leave the rows as they are,
    and every request handler leaves the rows it found in place and adds at
    most one row after them. *)
Theorem store_is_append_only :
  (forall o w, db (snd (save_price_to_db o w)) = (db w ++ [new_row (db w) (clock w) o])%list) /\
  (forall asin days w, db (snd (get_price_history_from_db asin days w)) = db w) /\
  (forall asin w, db (snd (scrape_amazon_price asin w)) = db w) /\
  (forall req w, exists added : list Row,
        db (snd (handle req w)) = (db w ++ added)%list /\ (List.length added <= 1)%nat).
Proof.
  split; [reflexivity|].
  split; [intros asin days w; now rewrite get_price_history_from_db_unfold|].
  assert (Hscrape : forall asin w, db (snd (scrape_amazon_price asin w)) = db w).
  { intros asin w.
    destruct (scrape_amazon_price_returns asin w) as (o & w1 & gets & Hrun & _ & _ & Hdb & _).
    now rewrite Hrun. }
  split; [exact Hscrape|].
  intros [|asin|asin days|category min_discount limit|] w.
  - exists []. split; [cbn; now rewrite app_nil_r|cbn; lia].
  - destruct (scrape_amazon_price_returns asin w)
      as (o & w1 & gets & Hrun & _ & _ & Hdb & _).
    exists [new_row (db w) (clock w1) o].
    unfold handle, fmap. unfold bind at 1.
    rewrite (get_current_price_unfold asin w w1 o Hrun). cbn [ret snd db].
    rewrite Hdb. split; [reflexivity|cbn; lia].
  - unfold handle, fmap. unfold bind at 1. rewrite get_price_history_unfold.
    destruct (select_history (db w) (clock w) asin days) as [|first rest].
    + destruct (scrape_amazon_price_returns asin (logged w (EvSelect asin days)))
        as (o & w1 & gets & Hrun & _ & _ & Hdb & _).
      rewrite Hrun. exists [new_row (db w) (clock w1) o].
      cbn [ret snd appended db logged] in *. rewrite Hdb.
      split; [reflexivity|cbn; lia].
    + exists []. split; [cbn; now rewrite app_nil_r|cbn; lia].
  - exists []. split; [cbn; now rewrite app_nil_r|cbn; lia].
  - exists []. split; [cbn; now rewrite app_nil_r|cbn; lia].
Qed.

(** C10.  Get-history takes the fetch-and-append fall-back exactly when the
    query over the window selects no row.  This includes stores that hold
    observations of the identifier, all of them older than the window: the
    extractor is then called once, after the query, and the very
    observation it returns is appended after the rows in place and
    returned as a history of one entry.  When the query selects rows,
    nothing is fetched or appended and the stored aggregate is the
    answer. *)
Theorem history_fallback_iff_window_empty :
  (forall (asin : string) (days : Z) (w : World),
      let rows := select_history (db w) (clock w) asin days in
      let w' := snd (get_price_history asin days w) in
      (rows = [] <-> count_scrapes (trace w') = S (count_scrapes (trace w))) /\
      (rows = [] <-> count_inserts (trace w') = S (count_inserts (trace w))) /\
      (rows = [] ->
       exists (o : Observation) (w1 : World),
         scrape_amazon_price asin (logged w (EvSelect asin days)) = (Ok o, w1) /\
         get_price_history asin days w
         = (Ok (single_entry asin o (clock w1)), appended w1 o) /\
         fst (get_price_history asin days w) = Ok (single_entry asin o (clock w')) /\
         asin_of o = asin /\
         db w' = (db w ++ [new_row (db w) (clock w') o])%list) /\
      (rows <> [] ->
       db w' = db w /\
       exists h : PriceHistoryResponse,
         fst (get_price_history_from_db asin days w) = Ok (Some h) /\
         fst (get_price_history asin days w) = Ok h)) /\
  ((exists r, In r (db stale_world) /\ row_asin r = "B00TEST") /\
   select_history (db stale_world) (clock stale_world) "B00TEST" 1 = [] /\
   select_history (db stale_world) (clock stale_world) "B00TEST" 0 = [] /\
   fst (get_price_history "B00TEST" 1 stale_world)
   = Ok (single_entry "B00TEST" (mock_data "B00TEST") (10 * 86400 + 6)) /\
   map id (db (snd (get_price_history "B00TEST" 1 stale_world))) = [1; 2] /\
   fst (get_price_history "B00TEST" 1 stale_world_online)
   = Ok (single_entry "B00TEST"
           {| asin := "B00TEST"; title := "Widget"; price := Double.of_Q 12.50;
              currency := "USD"; url := "https://www.amazon.com/dp/B00TEST" |}
           (10 * 86400 + 3)) /\
   map row_price (db (snd (get_price_history "B00TEST" 1 stale_world_online)))
   = [Double.of_Q 7.25; Double.of_Q 12.50]).
Proof.
  split.
  - intros asin days w rows w'.
    destruct rows as [|first rest] eqn:E.
    + destruct (history_fallback asin days w E)
        as (o & w1 & gets & Hrun & Hget & Hasin & Hdb & Hclk & Htr).
      assert (Hw' : w' = appended w1 o) by (unfold w'; now rewrite Hget).
      assert (Htrace : trace w'
                       = (trace w ++ [EvSelect asin days; EvScrape asin] ++ map EvGet gets
                            ++ [EvInsert (new_row (db w) (clock w1) o)])%list).
      { rewrite Hw'. cbn [appended trace]. rewrite Htr, Hdb, <- !app_assoc. reflexivity. }
      split; [split; [intros _|reflexivity]|].
      { rewrite Htrace, !count_scrapes_app, count_scrapes_gets. cbn. lia. }
      split; [split; [intros _|reflexivity]|].
      { rewrite Htrace, !count_inserts_app, count_inserts_gets. cbn. lia. }
      split; [|intros H; now elim H].
      intros _. exists o, w1. split; [exact Hrun|]. split; [exact Hget|].
      rewrite Hget, Hw'. cbn [fst appended clock db].
      rewrite Hdb. repeat split. exact Hasin.
    + assert (Hget : get_price_history asin days w
                     = (Ok {| history_asin := asin;
                              history_title := row_title first;
                              price_history := map entry_of (first :: rest);
                              lowest_price := py_min (row_price first) (map row_price rest);
                              highest_price := py_max (row_price first) (map row_price rest) |},
                        logged w (EvSelect asin days)))
        by (rewrite get_price_history_unfold; fold rows; now rewrite E).
      assert (Hw' : w' = logged w (EvSelect asin days)) by (unfold w'; now rewrite Hget).
      split; [split; [discriminate|]|].
      { rewrite Hw'. cbn [logged trace]. rewrite count_scrapes_app. cbn. lia. }
      split; [split; [discriminate|]|].
      { rewrite Hw'. cbn [logged trace]. rewrite count_inserts_app. cbn. lia. }
      split; [discriminate|].
      intros _. split; [now rewrite Hw'|].
      eexists. rewrite get_price_history_from_db_unfold, Hget. fold rows. rewrite E.
      split; reflexivity.
  - split; [exists (sample_row 1 "B00TEST" 12.50 0); split; [now left|reflexivity]|].
    repeat split; vm_compute; reflexivity.
Qed.

(** C9, as the claim states it, fails for the limit: two requests that
    differ only in their limit get the same answer, so the answer does not
    reflect the limit. *)
Lemma find_deals_limit_counterexample :
  ~ (forall (category : string) (min_discount limit limit' : Z),
        find_deals category min_discount limit = find_deals category min_discount limit' ->
        limit = limit').
Proof.
  intros H. specialize (H "books" 20 10 50 eq_refl). discriminate H.
Qed.

Section DealsFacts.

Lemma append_percent_inj (a b : string) : a ++ "%" = b ++ "%" -> a = b.
Proof.
  revert b. induction a as [|c a IH]; intros [|d b]; simpl; intros H.
  - reflexivity.
  - injection H as _ H. now destruct b.
  - injection H as _ H. now destruct a.
  - injection H as -> H. f_equal. now apply IH.
Qed.

Lemma str_inj (n n' : Z) : str n = str n' -> n = n'.
Proof.
  unfold str. intros H. apply DecimalZ.to_int_inj.
  assert (Hnn : forall z, NilZero.int_of_string (NilZero.string_of_int (Z.to_int z))
                          = Some (Z.to_int z)).
  { intros z. apply NilZero.isi; destruct z; simpl; try discriminate;
      intros [= E]; now apply Unsigned.to_uint_nonnil in E. }
  pose proof (Hnn n) as E. rewrite H, Hnn in E. now injection E.
Qed.

End DealsFacts.

(** C9, amended.  Find-deals fetches nothing and touches neither the store
    nor the log; its answer is a fixed message and note together with the
    category as given and the minimum discount written in decimal and
    followed by a percent sign, so that both can be read back from it; the
    limit is accepted and has no influence on the answer. *)
Theorem find_deals_echoes_category_and_discount
        (category : string) (min_discount limit : Z) (w : World) :
  handle (GetDeals category min_discount limit) w
  = (Ok (DealsBody (find_deals category min_discount limit)), w) /\
  deals_category (find_deals category min_discount limit) = category /\
  deals_min_discount (find_deals category min_discount limit) = str min_discount ++ "%" /\
  deals_message (find_deals category min_discount limit) = "Deals endpoint coming soon!" /\
  deals_note (find_deals category min_discount limit)
  = "This requires scraping Amazon's deals pages - will implement next" /\
  (forall limit', find_deals category min_discount limit'
                  = find_deals category min_discount limit) /\
  (forall category' min_discount' limit',
      find_deals category' min_discount' limit' = find_deals category min_discount limit ->
      category' = category /\ min_discount' = min_discount).
Proof.
  repeat split.
  - injection H as H _. exact H.
  - injection H as _ H. now apply str_inj, append_percent_inj.
Qed.

Lemma find_deals_echoes_category_and_discount_witness :
  find_deals "books" 20 10 = find_deals "books" 20 50 /\
  ("books" = "books" /\ 20 = 20).
Proof.
  split; [reflexivity|].
  exact (proj2 (proj2 (proj2 (proj2 (proj2 (proj2
           (find_deals_echoes_category_and_discount "books" 20 50 sample_world))))))
           "books" 20 10 eq_refl).
Defined.

Lemma history_fallback_iff_window_empty_witness :
  select_history (db stale_world_online) (clock stale_world_online) "B00TEST" 1 = [] /\
  exists (o : Observation) (w1 : World),
    scrape_amazon_price "B00TEST" (logged stale_world_online (EvSelect "B00TEST" 1))
    = (Ok o, w1) /\
    get_price_history "B00TEST" 1 stale_world_online
    = (Ok (single_entry "B00TEST" o (clock w1)), appended w1 o) /\
    fst (get_price_history "B00TEST" 1 stale_world_online)
    = Ok (single_entry "B00TEST" o
            (clock (snd (get_price_history "B00TEST" 1 stale_world_online)))) /\
    asin_of o = "B00TEST" /\
    db (snd (get_price_history "B00TEST" 1 stale_world_online))
    = (db stale_world_online
         ++ [new_row (db stale_world_online)
                     (clock (snd (get_price_history "B00TEST" 1 stale_world_online))) o])%list.
Proof.
  split; [reflexivity|].
  exact (proj1 (proj2 (proj2 (proj1 history_fallback_iff_window_empty
                                    "B00TEST" 1 stale_world_online))) eq_refl).
Defined.

(** ** The store never holds rows from the future *)

Section ClockFacts.

Lemma no_future_rows_appended (w w1 : World) (o : Observation) :
  db w1 = db w -> clock w <= clock w1 ->
  no_future_rows w -> no_future_rows (appended w1 o).
Proof.
  unfold no_future_rows. intros Hdb Hclk H. cbn [appended db clock].
  rewrite Hdb. apply Forall_app. split.
  - eapply Forall_impl; [|exact H]. cbv beta. intros; lia.
  - constructor; [cbn; lia|constructor].
Qed.

(** Every request handler keeps the invariant assumed of the store. *)
Lemma handle_keeps_no_future_rows (req : Request) (w : World) :
  no_future_rows w -> no_future_rows (snd (handle req w)).
Proof.
  intros H. destruct req as [|asin|asin days|category min_discount limit|].
  - exact H.
  - destruct (scrape_amazon_price_returns asin w)
      as (o & w1 & gets & Hrun & _ & _ & Hdb & Hclk & _).
    unfold handle, fmap. unfold bind at 1.
    rewrite (get_current_price_unfold asin w w1 o Hrun). cbn [ret snd].
    now apply (no_future_rows_appended w w1 o).
  - unfold handle, fmap. unfold bind at 1. rewrite get_price_history_unfold.
    destruct (select_history (db w) (clock w) asin days) as [|first rest].
    + destruct (scrape_amazon_price_returns asin (logged w (EvSelect asin days)))
        as (o & w1 & gets & Hrun & _ & _ & Hdb & Hclk & _).
      rewrite Hrun. cbn [ret snd].
      now apply (no_future_rows_appended w w1 o).
    + exact H.
  - exact H.
  - exact H.
Qed.

End ClockFacts.


(** * Further properties of the code *)

(** ** Price text *)

Section PriceTextFacts.
Import Text.

Lemma span_stops (p : ascii -> bool) (a s : string) :
  forallb p a = true -> stops p s -> span p (a ++ s) = (a, s).
Proof.
  intros Ha Hs. induction a as [|x a IH].
  - destruct s as [|c s]; [reflexivity|]. cbn in Hs. cbn [append span]. now rewrite Hs.
  - cbn [forallb] in Ha. apply andb_prop in Ha as [Hx Ha].
    cbn [append span]. now rewrite Hx, (IH Ha).
Qed.

Lemma space_not_digit_or_comma (c : ascii) :
  isspace c = true -> is_digit_or_comma c = false.
Proof.
  intros H. destruct (is_digit_or_comma c) eqn:E; [|reflexivity].
  apply digit_or_comma_not_space in E. rewrite H in E. discriminate.
Qed.

Lemma rstrip_cons (c : ascii) (s : string) :
  rstrip (String c s) = EmptyString /\ isspace c = true \/
  rstrip (String c s) = String c (rstrip s).
Proof.
  simpl. destruct (rstrip s) as [|d t]; [|now right].
  destruct (isspace c); [now left|now right].
Qed.

Lemma span_rstrip (p : ascii -> bool) (s : string) :
  (forall c, p c = true -> isspace c = false) ->
  span p (rstrip s) = (fst (span p s), rstrip (snd (span p s))).
Proof.
  intros Hp. induction s as [|c s IH]; [reflexivity|].
  cbn [span]. destruct (p c) eqn:E.
  - destruct (rstrip_cons c s) as [[_ Hsp] | ->].
    + rewrite (Hp c E) in Hsp. discriminate.
    + cbn [span]. rewrite E, IH. now destruct (span p s).
  - cbn [fst snd]. destruct (rstrip_cons c s) as [[-> _] | ->]; [reflexivity|].
    cbn [span]. now rewrite E.
Qed.

Lemma group_text_rstrip (s : string) : group_text (rstrip s) = group_text s.
Proof.
  unfold group_text.
  rewrite (span_rstrip is_digit_or_comma s)
    by (intros c H; apply digit_or_comma_not_space in H; now apply negb_true_iff in H).
  destruct (span is_digit_or_comma s) as [run s2]. cbn [fst snd].
  destruct s2 as [|d s3]; [reflexivity|].
  destruct (rstrip_cons d s3) as [[-> Hsp] | ->].
  - destruct (is_dot d) eqn:E; [|reflexivity].
    apply Ascii.eqb_eq in E. subst d. discriminate.
  - destruct (is_dot d); [|reflexivity].
    rewrite (span_rstrip is_digit s3); [reflexivity|].
    intros c H. apply digit_is_digit_or_comma, digit_or_comma_not_space in H.
    now apply negb_true_iff in H.
Qed.

Lemma first_group_rstrip (s : string) : first_group (rstrip s) = first_group s.
Proof.
  induction s as [|c s IH]; [reflexivity|].
  cbn [first_group]. destruct (rstrip_cons c s) as [[E Hsp]|E].
  - rewrite (space_not_digit_or_comma c Hsp).
    rewrite E. cbn [first_group].
    simpl in E. destruct (rstrip s); [|discriminate]. exact IH.
  - destruct (is_digit_or_comma c) eqn:Hc.
    + rewrite <- (group_text_rstrip (String c s)), E.
      cbn [first_group]. now rewrite Hc.
    + rewrite E. cbn [first_group]. now rewrite Hc.
Qed.

Lemma first_group_lstrip (s : string) : first_group (lstrip s) = first_group s.
Proof.
  induction s as [|c s IH]; [reflexivity|].
  cbn [lstrip first_group]. destruct (isspace c) eqn:E; [|reflexivity].
  now rewrite (space_not_digit_or_comma c E).
Qed.

(** White space around the text plays no part in the price. *)
Lemma price_of_text_unstripped (t : string) :
  price_of_text t =
  match first_group t with
  | Some group1 => float (remove_commas group1)
  | None => None
  end.
Proof.
  rewrite price_of_text_direct. unfold strip.
  now rewrite first_group_rstrip, first_group_lstrip.
Qed.

Lemma first_group_prefix (pre s : string) :
  existsb is_digit_or_comma pre = false -> first_group (pre ++ s) = first_group s.
Proof.
  induction pre as [|c pre IH]; simpl; [reflexivity|].
  intros H. apply orb_false_elim in H as [Hc Hpre]. rewrite Hc. now apply IH.
Qed.

End PriceTextFacts.

(** X1.  Text that comes before the first digit or comma, and white space
    around the text, have no influence on the price read from an
    element. *)
Theorem price_text_prefix_ignored (pre s : string) :
  Text.existsb Text.is_digit_or_comma pre = false ->
  price_of_text (pre ++ s) = price_of_text s /\
  price_of_text (pre ++ s) = price_of_text (Text.strip s).
Proof.
  intros H. rewrite !price_of_text_unstripped.
  rewrite (first_group_prefix pre s H). split; [reflexivity|].
  unfold Text.strip. now rewrite first_group_rstrip, first_group_lstrip.
Qed.

Lemma price_text_prefix_ignored_witness :
  Text.existsb Text.is_digit_or_comma "Now only: USD " = false /\
  price_of_text ("Now only: USD " ++ "1,299.00 incl. VAT") = price_of_text "1,299.00 incl. VAT".
Proof.
  split; [reflexivity|].
  exact (proj1 (price_text_prefix_ignored "Now only: USD " "1,299.00 incl. VAT" eq_refl)).
Defined.

(** X2.  A number with a decimal part: digits and commas holding at least
    one digit, a period, digits, and then the end of the text or any
    character that is not a digit.  The price is the double nearest to the
    number made of the digits before and after the period, with as many
    decimals as there are digits after the period; what follows is
    ignored. *)
Theorem price_decimal_value (a b tail : string) :
  Text.forallb Text.is_digit_or_comma a = true ->
  Text.existsb Text.is_digit a = true ->
  Text.forallb Text.is_digit b = true ->
  stops Text.is_digit tail ->
  price_of_text (a ++ String "." (b ++ tail))
  = Some (Double.nearest (Text.digits_value 0 (Text.remove_commas a ++ b))
                         (Z.to_pos (10 ^ Z.of_nat (String.length b)))).
Proof.
  intros Ha Hdig Hb Htail. rewrite price_of_text_unstripped.
  destruct a as [|c a']; [discriminate|].
  pose proof Ha as Ha'. cbn [Text.forallb] in Ha'. apply andb_prop in Ha' as [Hc _].
  change ((String c a') ++ String "." (b ++ tail))
    with (String c (a' ++ String "." (b ++ tail))).
  cbn [first_group]. rewrite Hc. unfold group_text.
  change (String c (a' ++ String "." (b ++ tail)))
    with (String c a' ++ String "." (b ++ tail)).
  rewrite (span_stops Text.is_digit_or_comma (String c a') (String "." (b ++ tail)) Ha)
    by reflexivity.
  change (Text.is_dot ".") with true. cbv iota.
  rewrite (span_stops Text.is_digit b tail Hb Htail). cbn [fst].
  rewrite remove_commas_app.
  change (Text.remove_commas (String "." b)) with (String "." (Text.remove_commas b)).
  rewrite (remove_commas_digits b Hb).
  set (da := Text.remove_commas (String c a')).
  assert (Hda : Text.forallb Text.is_digit da = true) by now apply remove_commas_run.
  assert (Hne : Text.is_empty da = false).
  { destruct da eqn:E; [|reflexivity].
    unfold da in E. rewrite <- existsb_remove_commas, E in Hdig. discriminate. }
  unfold Text.float.
  rewrite (span_stops Text.is_digit da (String "." b) Hda) by reflexivity.
  change (Text.is_dot ".") with true. cbv iota.
  rewrite (span_all Text.is_digit b Hb). cbn [Text.is_empty].
  now rewrite Hne.
Qed.

Lemma price_decimal_value_witness :
  Text.forallb Text.is_digit_or_comma "1" = true /\
  Text.existsb Text.is_digit "1" = true /\
  Text.forallb Text.is_digit "234" = true /\
  stops Text.is_digit ",56 EUR" /\
  price_of_text "1.234,56 EUR" = Some (Double.of_Q 1.234) /\
  price_of_text "19.999999999999999999" = Some (Double.Finite 20).
Proof.
  do 4 (split; [reflexivity|]).
  split.
  - exact (price_decimal_value "1" "234" ",56 EUR" eq_refl eq_refl eq_refl eq_refl).
  - exact (price_decimal_value "19" "999999999999999999" "" eq_refl eq_refl eq_refl I).
Defined.

(** X3.  Only the leftmost match of the pattern is tried.  When the first
    digit or comma of the text is a comma followed by a character that is
    not a digit, a comma or a period (or by nothing), the element yields no
    price, whatever number the rest of the text holds. *)
Theorem price_leftmost_match_only (pre rest : string) :
  Text.existsb Text.is_digit_or_comma pre = false ->
  stops (fun c => Text.is_digit_or_comma c || Text.is_dot c) rest ->
  price_of_text (pre ++ String "," rest) = None.
Proof.
  intros Hpre Hrest. rewrite price_of_text_unstripped, (first_group_prefix _ _ Hpre).
  cbn [first_group]. change (Text.is_digit_or_comma ",") with true. cbv iota.
  unfold group_text. cbn [Text.span]. change (Text.is_digit_or_comma ",") with true.
  cbv iota. destruct rest as [|c rest]; [reflexivity|].
  simpl in Hrest. apply orb_false_elim in Hrest as [Hdc Hdot].
  cbn [Text.span]. rewrite Hdc, Hdot. reflexivity.
Qed.

Lemma price_leftmost_match_only_witness :
  Text.existsb Text.is_digit_or_comma "Hurry" = false /\
  stops (fun c => Text.is_digit_or_comma c || Text.is_dot c) " only $5.00 today" /\
  price_of_text "Hurry, only $5.00 today" = None.
Proof.
  split; [reflexivity|]. split; [reflexivity|].
  exact (price_leftmost_match_only "Hurry" " only $5.00 today" eq_refl eq_refl).
Defined.

(** ** The extractor's requests *)

Section RequestFacts.

Lemma gives_no_price_outcome (asin url : string) (w : World) :
  gives_no_price w url -> locator_outcome asin url (web w url) = None.
Proof.
  intros [H|[(response & Hweb & Hcontent)|(soup & Hserves & Hprice)]].
  - now apply locator_outcome_fails.
  - unfold locator_outcome. rewrite Hweb.
    destruct (status_code response =? 503); [reflexivity|].
    destruct ((400 <=? status_code response) && (status_code response <? 600));
      [reflexivity|].
    now rewrite Hcontent.
  - destruct Hserves as (response & Hweb & H503 & Hstatus & Hcontent).
    unfold locator_outcome. rewrite Hweb.
    destruct (status_code response =? 503); [reflexivity|].
    destruct ((400 <=? status_code response) && (status_code response <? 600));
      [reflexivity|].
    now rewrite Hcontent, Hprice.
Qed.

(** The loop requests the locators in the order of the list and stops
    after the first one that gives an observation. *)
Lemma scrape_urls_requests (asin : string) (urls : list string) (w : World) :
  exists (r : option Observation) (w' : World) (gets rest : list string),
    scrape_urls asin urls w = (Ok r, w') /\
    urls = (gets ++ rest)%list /\
    trace w' = (trace w ++ map EvGet gets)%list /\
    ((r = None /\ rest = [] /\
      forall u, In u gets -> locator_outcome asin u (web w u) = None) \/
     (exists before u o,
         gets = (before ++ [u])%list /\ r = Some o /\
         locator_outcome asin u (web w u) = Some o /\
         forall x, In x before -> locator_outcome asin x (web w x) = None)).
Proof.
  revert w. induction urls as [|u urls IH]; intros w.
  - exists None, w, [], []. cbn [scrape_urls ret map].
    split; [reflexivity|]. split; [reflexivity|].
    split; [symmetry; apply app_nil_r|].
    left. split; [reflexivity|]. split; [reflexivity|]. intros u [].
  - cbn [scrape_urls]. unfold bind at 1. rewrite try_attempt.
    destruct (locator_outcome asin u (web w u)) as [o|] eqn:E.
    + exists (Some o), (after_get w u), [u], urls.
      split; [reflexivity|]. split; [reflexivity|]. split; [reflexivity|].
      right. exists [], u, o.
      split; [reflexivity|]. split; [reflexivity|]. split; [exact E|intros x []].
    + destruct (IH (after_get w u)) as (r & w' & gets & rest & Hrun & Hurls & Htr & Hcases).
      exists r, w', (u :: gets), rest. rewrite Hrun.
      cbn [after_get web trace] in *.
      split; [reflexivity|]. split; [now rewrite Hurls|].
      split; [rewrite Htr, <- app_assoc; reflexivity|].
      destruct Hcases as [(-> & -> & Hnone)|(before & x & o & -> & -> & Ho & Hnone)].
      * left. split; [reflexivity|]. split; [reflexivity|].
        intros y [<-|Hy]; [exact E|now apply Hnone].
      * right. exists (u :: before), x, o.
        split; [reflexivity|]. split; [reflexivity|]. split; [exact Ho|].
        intros y [<-|Hy]; [exact E|now apply Hnone].
Qed.

End RequestFacts.



(** X5.  When the first locator gives no price (its fetch fails, its
    document cannot be parsed, or its page has no price) and the second one
    serves a page with a price, the observation carries that price and the
    second locator as source, and both locators were requested, the first
    one first. *)
Theorem scrape_falls_back_to_second_locator
        (asin : string) (w : World) (soup : BeautifulSoup) (p : double) :
  gives_no_price w ("https://www.amazon.com/dp/" ++ asin) ->
  serves w ("https://www.amazon.com/gp/product/" ++ asin) soup ->
  extract_price soup price_selectors = Some p ->
  fst (scrape_amazon_price asin w)
  = Ok {| asin := asin;
          title := title_or_default (extract_title soup title_selectors) asin;
          price := p;
          currency := "USD";
          url := "https://www.amazon.com/gp/product/" ++ asin |} /\
  trace (snd (scrape_amazon_price asin w))
  = (trace w ++ [ EvScrape asin;
                  EvGet ("https://www.amazon.com/dp/" ++ asin);
                  EvGet ("https://www.amazon.com/gp/product/" ++ asin) ])%list.
Proof.
  intros Hfirst Hsecond Hp.
  assert (E : scrape_urls asin (urls_to_try asin) (logged w (EvScrape asin))
              = (Ok (Some {| asin := asin;
                             title := title_or_default (extract_title soup title_selectors) asin;
                             price := p;
                             currency := "USD";
                             url := "https://www.amazon.com/gp/product/" ++ asin |}),
                 after_get (after_get (logged w (EvScrape asin))
                                      ("https://www.amazon.com/dp/" ++ asin))
                           ("https://www.amazon.com/gp/product/" ++ asin))).
  { unfold urls_to_try. cbn [scrape_urls]. unfold bind at 1. rewrite try_attempt.
    cbn [logged web].
    rewrite (gives_no_price_outcome asin _ w Hfirst).
    unfold bind at 1. rewrite try_attempt. cbn [after_get logged web].
    now rewrite (locator_outcome_serves asin _ w soup p Hsecond Hp). }
  rewrite scrape_amazon_price_unfold, E.
  cbn [fst snd trace after_get logged]. split; [reflexivity|].
  now rewrite <- !app_assoc.
Qed.

Lemma scrape_falls_back_to_second_locator_witness :
  gives_no_price
    (world_of (fun u => if String.eqb u "https://www.amazon.com/dp/B00TEST"
                        then inr {| status_code := 503; content := None |}
                        else online page_with_two_prices u) [] 0)
    ("https://www.amazon.com/dp/" ++ "B00TEST") /\
  url_of
    match fst (scrape_amazon_price "B00TEST"
                 (world_of (fun u => if String.eqb u "https://www.amazon.com/dp/B00TEST"
                                     then inr {| status_code := 503; content := None |}
                                     else online page_with_two_prices u) [] 0)) with
    | Ok o => o
    | Raise _ => mock_data "B00TEST"
    end
  = "https://www.amazon.com/gp/product/B00TEST".
Proof.
  assert (H1 : gives_no_price
                 (world_of (fun u => if String.eqb u "https://www.amazon.com/dp/B00TEST"
                                     then inr {| status_code := 503; content := None |}
                                     else online page_with_two_prices u) [] 0)
                 ("https://www.amazon.com/dp/" ++ "B00TEST"))
    by (left; cbn; lia).
  split; [exact H1|].
  assert (H2 : serves
                 (world_of (fun u => if String.eqb u "https://www.amazon.com/dp/B00TEST"
                                     then inr {| status_code := 503; content := None |}
                                     else online page_with_two_prices u) [] 0)
                 ("https://www.amazon.com/gp/product/" ++ "B00TEST") page_with_two_prices).
  { exists {| status_code := 200; content := Some page_with_two_prices |}.
    split; [reflexivity|]. split; [discriminate|]. split; [left; reflexivity|reflexivity]. }
  rewrite (proj1 (scrape_falls_back_to_second_locator "B00TEST" _ page_with_two_prices (Double.of_Q 12.50)
                    H1 H2 eq_refl)).
  reflexivity.
Defined.

(** X6.  The mock response is returned whenever no locator gives a price,
    not only when the fetches fail: also when a document cannot be parsed
    and when the pages are served but no price selector yields a number on
    them. *)
Theorem placeholder_when_no_price_found (asin : string) (w : World) :
  (forall u, In u (urls_to_try asin) -> gives_no_price w u) ->
  fst (scrape_amazon_price asin w) = Ok (mock_data asin) /\
  exists body, fst (get_current_price asin w) = Ok body /\
               response_title body = title (mock_data asin) /\
               current_price body = Double.of_Q 99.99.
Proof.
  intros Hnone.
  assert (Hrun : fst (scrape_amazon_price asin w) = Ok (mock_data asin)).
  { rewrite scrape_amazon_price_unfold.
    pose proof (scrape_urls_all_fail asin (urls_to_try asin) (logged w (EvScrape asin))) as H.
    destruct (scrape_urls asin (urls_to_try asin) (logged w (EvScrape asin)))
      as [r w'] eqn:E.
    cbn [fst] in H. rewrite H; [reflexivity|].
    intros u Hu. apply (gives_no_price_outcome asin u w). now apply Hnone. }
  split; [exact Hrun|].
  destruct (scrape_amazon_price asin w) as [r w1] eqn:E. cbn [fst] in Hrun. subst r.
  rewrite (get_current_price_unfold asin w w1 _ E). cbn [fst].
  eexists. repeat split.
Qed.

Lemma placeholder_when_no_price_found_witness :
  (forall u, In u (urls_to_try "B00TEST") ->
             gives_no_price (world_of (online (page_of [("#productTitle", ["Widget"])])) [] 0) u) /\
  fst (scrape_amazon_price "B00TEST"
         (world_of (online (page_of [("#productTitle", ["Widget"])])) [] 0))
  = Ok (mock_data "B00TEST").
Proof.
  assert (H : forall u, In u (urls_to_try "B00TEST") ->
                gives_no_price (world_of (online (page_of [("#productTitle", ["Widget"])])) [] 0) u).
  { intros u _. right. right. exists (page_of [("#productTitle", ["Widget"])]).
    split; [|reflexivity].
    exists {| status_code := 200; content := Some (page_of [("#productTitle", ["Widget"])]) |}.
    repeat split; [discriminate|left; reflexivity]. }
  split; [exact H|].
  exact (proj1 (placeholder_when_no_price_found "B00TEST" _ H)).
Defined.

(** ** What an observation looks like *)

Section ObservationFacts.
Import Text.

Lemma rstrip_append_kept (a b : string) :
  rstrip b = b -> b <> EmptyString -> rstrip (a ++ b) = a ++ b.
Proof.
  intros Hb Hne. induction a as [|c a IH]; [exact Hb|].
  cbn [append rstrip]. rewrite IH.
  destruct (a ++ b) eqn:E; [|reflexivity].
  destruct a; [simpl in E; congruence|discriminate].
Qed.

Lemma mock_title_stripped (asin : string) :
  strip (title (mock_data asin)) = title (mock_data asin).
Proof.
  unfold strip. cbn [mock_data title].
  change (lstrip ("Mock Product " ++ asin ++ " (Scraping blocked - need proxy)"))
    with ("Mock Product " ++ asin ++ " (Scraping blocked - need proxy)").
  rewrite <- append_assoc. apply rstrip_append_kept; [reflexivity|discriminate].
Qed.

Lemma title_or_default_not_empty (t : option string) (asin : string) :
  title_or_default t asin <> EmptyString.
Proof. destruct t as [[|c t]|]; discriminate. Qed.

End ObservationFacts.

(** X7.  The mock response cannot be told from a genuine observation: a
    page whose title element holds the mock title and whose price element
    holds 99.99, served by the first locator, makes the extractor return
    exactly the mock response. *)
Theorem placeholder_indistinguishable (asin : string) (w : World) :
  serves w ("https://www.amazon.com/dp/" ++ asin) (mock_lookalike_page asin) ->
  fst (scrape_amazon_price asin w) = Ok (mock_data asin).
Proof.
  intros Hserves.
  rewrite (scrape_first_locator asin w (mock_lookalike_page asin) (Double.of_Q 99.99) Hserves eq_refl).
  change (extract_title (mock_lookalike_page asin) title_selectors)
    with (Some (Text.strip (title (mock_data asin)))).
  rewrite mock_title_stripped. reflexivity.
Qed.

Lemma placeholder_indistinguishable_witness :
  serves (world_of (online (mock_lookalike_page "B00TEST")) [] 0)
         ("https://www.amazon.com/dp/" ++ "B00TEST") (mock_lookalike_page "B00TEST") /\
  fst (scrape_amazon_price "B00TEST" (world_of (online (mock_lookalike_page "B00TEST")) [] 0))
  = fst (scrape_amazon_price "B00TEST" (world_of offline [] 0)).
Proof.
  assert (H : serves (world_of (online (mock_lookalike_page "B00TEST")) [] 0)
                     ("https://www.amazon.com/dp/" ++ "B00TEST")
                     (mock_lookalike_page "B00TEST")).
  { exists {| status_code := 200; content := Some (mock_lookalike_page "B00TEST") |}.
    split; [reflexivity|]. split; [discriminate|]. split; [left; reflexivity|reflexivity]. }
  split; [exact H|].
  rewrite (placeholder_indistinguishable "B00TEST" _ H). reflexivity.
Defined.

(** X8.  Every observation the extractor returns is for the identifier
    asked for, is priced in USD at zero or more, names one of the two
    locators of the identifier as its source, and has a title that is not
    empty. *)
Theorem observation_well_formed (asin : string) (w : World) :
  exists (o : Observation) (w' : World),
    scrape_amazon_price asin w = (Ok o, w') /\
    asin_of o = asin /\
    currency o = "USD" /\
    In (url_of o) (urls_to_try asin) /\
    title o <> "" /\
    Double.nonneg (price o).
Proof.
  rewrite scrape_amazon_price_unfold.
  destruct (scrape_urls_requests asin (urls_to_try asin) (logged w (EvScrape asin)))
    as (r & w' & gets & rest & Hrun & Hurls & _ & Hcases).
  rewrite Hrun. cbn [logged web] in Hcases.
  destruct Hcases as [(-> & _ & _)|(before & u & o & -> & -> & Ho & _)].
  - exists (mock_data asin), w'. split; [reflexivity|].
    split; [reflexivity|]. split; [reflexivity|]. split; [now left|].
    split; [discriminate|apply mock_price_nonneg].
  - exists o, w'. split; [reflexivity|].
    assert (Hin : In u (urls_to_try asin))
      by (rewrite Hurls; apply in_or_app; left; apply in_or_app; right; now left).
    pose proof (locator_outcome_sound asin u _ o Ho) as (Ha & Hu & Hc & Hp).
    split; [exact Ha|]. split; [exact Hc|]. split; [now rewrite Hu|].
    split; [|exact Hp].
    unfold locator_outcome in Ho.
    destruct (web w u) as [e|response]; [discriminate|].
    destruct (status_code response =? 503); [discriminate|].
    destruct ((400 <=? status_code response) && (status_code response <? 600));
      [discriminate|].
    destruct (content response) as [soup|]; [|discriminate].
    destruct (extract_price soup price_selectors); [|discriminate].
    injection Ho as <-. apply title_or_default_not_empty.
Qed.

(** ** Handlers and the store together *)

Section HistoryFacts.

Lemma map_entry_price (rows : list Row) :
  map entry_price (map entry_of rows) = map row_price rows.
Proof. rewrite map_map. reflexivity. Qed.

Lemma select_history_negative (rows : list Row) (now : Z) (asin : string) (days : Z) :
  days < 0 -> select_history rows now asin days = [].
Proof.
  intros H. unfold select_history, sql_days_ago.
  apply Z.ltb_lt in H. rewrite H. rewrite filter_none; [reflexivity|].
  intros r _. unfold where_clause. apply andb_false_r.
Qed.

Lemma filter_incl_length {A} (f g : A -> bool) (l : list A) :
  (forall x, f x = true -> g x = true) ->
  incl (filter f l) (filter g l) /\
  (List.length (filter f l) <= List.length (filter g l))%nat.
Proof.
  intros Hfg. split.
  - intros x Hx. apply filter_In in Hx as [Hin Hf]. apply filter_In. auto.
  - induction l as [|x l IH]; simpl; [lia|].
    destruct (f x) eqn:E.
    + rewrite (Hfg x E). simpl. lia.
    + destruct (g x); simpl; lia.
Qed.

Lemma where_clause_wider (asin : string) (now days days' : Z) (r : Row) :
  days <= days' ->
  window_representable now days' ->
  where_clause asin (sql_days_ago now days) r = true ->
  where_clause asin (sql_days_ago now days') r = true.
Proof.
  intros Hle Hrep. unfold where_clause.
  destruct (String.eqb (row_asin r) asin); [|discriminate]. cbn [andb].
  rewrite (sql_days_ago_representable now days' Hrep).
  destruct (sql_days_ago now days) as [c|] eqn:E; [|discriminate].
  apply sql_days_ago_some in E as [-> _].
  intros H. apply Z.leb_le in H. apply Z.leb_le. lia.
Qed.

Lemma sorted_snoc (rows : list Row) (r : Row) :
  StronglySorted (fun a b => timestamp a <= timestamp b) rows ->
  Forall (fun a => timestamp a <= timestamp r) rows ->
  StronglySorted (fun a b => timestamp a <= timestamp b) (rows ++ [r]).
Proof.
  induction 1 as [|x l Hl IH Hx]; intros Hall; simpl.
  - repeat constructor.
  - inversion Hall as [|? ? Hxr Hlr]; subst.
    constructor; [now apply IH|].
    apply Forall_app. split; [exact Hx|]. now repeat constructor.
Qed.

Lemma chronological_appended (w w1 : World) (o : Observation) :
  db w1 = db w -> clock w <= clock w1 ->
  chronological w -> chronological (appended w1 o).
Proof.
  intros Hdb Hclk [Hfuture Hsorted].
  split; [now apply (no_future_rows_appended w w1 o)|].
  cbn [appended db]. rewrite Hdb. apply sorted_snoc; [exact Hsorted|].
  eapply Forall_impl; [|exact Hfuture]. cbn. intros; lia.
Qed.

End HistoryFacts.

(** X9.  Get-current-price stores what it answers: the store grows by one
    row, placed after the rows already there, whose identifier, title,
    price, currency and source are those of the response. *)
Theorem current_price_is_recorded (asin : string) (w : World) :
  exists (body : PriceResponse) (w' : World) (row : Row),
    get_current_price asin w = (Ok body, w') /\
    db w' = (db w ++ [row])%list /\
    id row = next_id (db w) /\
    row_asin row = response_asin body /\
    row_title row = response_title body /\
    row_price row = current_price body /\
    row_currency row = response_currency body /\
    row_url row = response_url body /\
    count_inserts (trace w') = S (count_inserts (trace w)).
Proof.
  destruct (scrape_amazon_price_returns asin w)
    as (o & w1 & gets & Hrun & _ & _ & Hdb & _ & Htr & _).
  eexists; eexists; exists (new_row (db w) (clock w1) o).
  rewrite (get_current_price_unfold asin w w1 o Hrun).
  split; [reflexivity|]. cbn [db trace]. rewrite Hdb.
  repeat (split; [reflexivity|]).
  rewrite Htr, !count_inserts_app.
  change (EvScrape asin :: map EvGet gets) with ([EvScrape asin] ++ map EvGet gets)%list.
  rewrite count_inserts_app, count_inserts_gets. cbn. lia.
Qed.

(** X10.  Get-history always answers, for every identifier, number of days
    and state of the store and of the site: the history is for the
    identifier asked for, holds at least one entry, and its lowest and
    highest prices are the least and the greatest of the prices of its
    entries. *)
Theorem history_always_answers (asin : string) (days : Z) (w : World) :
  exists (h : PriceHistoryResponse) (w' : World),
    get_price_history asin days w = (Ok h, w') /\
    http_status (fst (handle (GetHistory asin days) w)) = 200 /\
    history_asin h = asin /\
    price_history h <> [] /\
    is_min (lowest_price h) (map entry_price (price_history h)) /\
    is_max (highest_price h) (map entry_price (price_history h)).
Proof.
  assert (Hstatus : forall h w', get_price_history asin days w = (Ok h, w') ->
                                 http_status (fst (handle (GetHistory asin days) w)) = 200).
  { intros h w' E. unfold handle, fmap, bind. now rewrite E. }
  pose proof (get_price_history_unfold asin days w) as Hget.
  destruct (select_history (db w) (clock w) asin days) as [|first rest].
  - destruct (scrape_amazon_price_returns asin (logged w (EvSelect asin days)))
      as (o & w1 & gets & Hrun & _).
    rewrite Hrun in Hget.
    exists (single_entry asin o (clock w1)), (appended w1 o).
    split; [exact Hget|]. split; [exact (Hstatus _ _ Hget)|].
    split; [reflexivity|]. split; [discriminate|].
    split; (split; [now left|intros x [<-|[]]; apply le_refl]).
  - eexists; eexists. split; [exact Hget|]. split; [exact (Hstatus _ _ Hget)|].
    cbn [history_asin price_history lowest_price highest_price].
    split; [reflexivity|]. split; [discriminate|].
    rewrite map_entry_price.
    split; [apply (py_min_is_min (row_price first) (map row_price rest))
           |apply (py_max_is_max (row_price first) (map row_price rest))].
Qed.

(** X11.  With a negative number of days the query selects nothing, so
    get-history never reads the stored history: every such request fetches
    afresh and appends one more row, whatever the store holds. *)
Theorem negative_days_always_fall_back (asin : string) (days : Z) (w : World) :
  days < 0 ->
  fst (get_price_history_from_db asin days w) = Ok None /\
  exists (o : Observation) (w1 w' : World),
    get_price_history asin days w = (Ok (single_entry asin o (clock w1)), w') /\
    db w' = (db w ++ [new_row (db w) (clock w1) o])%list /\
    count_scrapes (trace w') = S (count_scrapes (trace w)).
Proof.
  intros Hneg.
  pose proof (select_history_negative (db w) (clock w) asin days Hneg) as E.
  split; [now rewrite get_price_history_from_db_unfold, E|].
  destruct (history_fallback asin days w E)
    as (o & w1 & gets & Hrun & Hget & _ & Hdb & _ & Htr).
  exists o, w1, (appended w1 o). split; [exact Hget|].
  cbn [appended db trace]. rewrite Hdb. split; [reflexivity|].
  rewrite Htr, !count_scrapes_app, count_scrapes_gets. cbn. lia.
Qed.

Lemma negative_days_always_fall_back_witness :
  -1 < 0 /\
  List.length (select_history (db sample_world) (clock sample_world) "B00TEST" 30) = 2%nat /\
  fst (get_price_history_from_db "B00TEST" (-1) sample_world) = Ok None.
Proof.
  split; [lia|]. split; [reflexivity|].
  exact (proj1 (negative_days_always_fall_back "B00TEST" (-1) sample_world eq_refl)).
Defined.

(** X12.  A price request followed by a history request: once
    get-current-price has answered, a get-history for the same identifier,
    made when SQLite can form the start of its window and with a window
    that reaches back to the moment of the price request, reads the store
    and fetches nothing; its history holds an entry with the price just
    answered, which lies between its lowest and highest prices. *)
Theorem price_then_history (asin : string) (days : Z) (pause : N) (w : World) :
  window_representable (clock (snd (sleep pause (snd (get_current_price asin w))))) days ->
  Z.of_N pause <= days * 86400 ->
  exists (body : PriceResponse) (w1 : World) (h : PriceHistoryResponse) (w2 : World),
    get_current_price asin w = (Ok body, w1) /\
    get_price_history asin days (snd (sleep pause w1)) = (Ok h, w2) /\
    db w2 = db w1 /\
    count_scrapes (trace w2) = count_scrapes (trace w1) /\
    count_inserts (trace w2) = count_inserts (trace w1) /\
    In (current_price body) (map entry_price (price_history h)) /\
    Double.le (lowest_price h) (current_price body) /\
    Double.le (current_price body) (highest_price h).
Proof.
  intros Hrep Hpause.
  destruct (scrape_amazon_price_returns asin w)
    as (o & w0 & gets & Hrun & _ & _ & Hdb & _ & _ & Hasin & _).
  pose proof (get_current_price_unfold asin w w0 o Hrun) as Hget.
  rewrite Hget in Hrep. cbn [snd sleep clock] in Hrep.
  set (row := new_row (db w0) (clock w0) o) in *.
  set (w1 := {| web := web w0; elapse := elapse w0; db := (db w0 ++ [row])%list;
                clock := clock w0; trace := (trace w0 ++ [EvInsert row])%list |}) in *.
  set (w1s := snd (sleep pause w1)).
  assert (Hin : In row (select_history (db w1s) (clock w1s) asin days)).
  { unfold select_history. eapply Permutation_in; [symmetry; apply order_by_perm|].
    apply filter_In. split; [cbn; apply in_or_app; right; now left|].
    unfold where_clause.
    cbn [row new_row row_asin timestamp w1s w1 sleep snd clock].
    rewrite (sql_days_ago_representable _ _ Hrep).
    fold (asin_of o). rewrite Hasin, String.eqb_refl. cbn [andb].
    apply Z.leb_le. lia. }
  pose proof (get_price_history_unfold asin days w1s) as Hhist.
  destruct (select_history (db w1s) (clock w1s) asin days) as [|first rest] eqn:E;
    [destruct Hin|].
  eexists; exists w1; eexists; eexists.
  split; [exact Hget|]. split; [exact Hhist|].
  cbn [logged db trace price_history lowest_price highest_price current_price].
  split; [reflexivity|].
  split; [rewrite count_scrapes_app; cbn; lia|].
  split; [rewrite count_inserts_app; cbn; lia|].
  rewrite map_entry_price.
  assert (Hp : In (price o) (map row_price (first :: rest)))
    by (change (price o) with (row_price row); now apply in_map).
  split; [exact Hp|].
  split; [apply (py_min_is_min (row_price first) (map row_price rest)); exact Hp
         |apply (py_max_is_max (row_price first) (map row_price rest)); exact Hp].
Qed.

Lemma price_then_history_witness :
  window_representable
    (clock (snd (sleep 3600 (snd (get_current_price "B00TEST" stale_world))))) 1 /\
  Z.of_N 3600 <= 1 * 86400 /\
  exists (body : PriceResponse) (w1 : World) (h : PriceHistoryResponse) (w2 : World),
    get_current_price "B00TEST" stale_world = (Ok body, w1) /\
    get_price_history "B00TEST" 1 (snd (sleep 3600 w1)) = (Ok h, w2) /\
    db w2 = db w1 /\
    count_scrapes (trace w2) = count_scrapes (trace w1) /\
    count_inserts (trace w2) = count_inserts (trace w1) /\
    In (current_price body) (map entry_price (price_history h)) /\
    Double.le (lowest_price h) (current_price body) /\
    Double.le (current_price body) (highest_price h).
Proof.
  assert (H1 : window_representable
                 (clock (snd (sleep 3600 (snd (get_current_price "B00TEST" stale_world))))) 1)
    by (unfold window_representable, calendar_start, calendar_end; cbn; lia).
  assert (H2 : Z.of_N 3600 <= 1 * 86400) by (cbn; lia).
  split; [exact H1|]. split; [exact H2|].
  exact (price_then_history "B00TEST" 1 3600 stale_world H1 H2).
Defined.

(** X13.  A wider window loses nothing as long as SQLite can form its
    start: when the query answers with a history for some number of days,
    it answers with a history for every larger number of days whose window
    is representable, which holds all the entries of the first, with a
    lowest price that is no higher and a highest price that is no lower. *)
Theorem wider_window_returns_more
        (asin : string) (days days' : Z) (w : World) (h : PriceHistoryResponse) :
  days <= days' ->
  window_representable (clock w) days' ->
  fst (get_price_history_from_db asin days w) = Ok (Some h) ->
  exists h' : PriceHistoryResponse,
    fst (get_price_history_from_db asin days' w) = Ok (Some h') /\
    incl (price_history h) (price_history h') /\
    (List.length (price_history h) <= List.length (price_history h'))%nat /\
    Double.le (lowest_price h') (lowest_price h) /\
    Double.le (highest_price h) (highest_price h').
Proof.
  intros Hle Hrep. rewrite !get_price_history_from_db_unfold. cbn [fst].
  destruct (filter_incl_length
              (where_clause asin (sql_days_ago (clock w) days))
              (where_clause asin (sql_days_ago (clock w) days')) (db w)
              (fun r => where_clause_wider asin (clock w) days days' r Hle Hrep))
    as [Hincl Hlen].
  assert (Hincl' : incl (select_history (db w) (clock w) asin days)
                        (select_history (db w) (clock w) asin days')).
  { intros r Hr. unfold select_history in *.
    eapply Permutation_in; [symmetry; apply order_by_perm|].
    apply Hincl. eapply Permutation_in; [apply order_by_perm|exact Hr]. }
  assert (Hlen' : (List.length (select_history (db w) (clock w) asin days)
                   <= List.length (select_history (db w) (clock w) asin days'))%nat).
  { unfold select_history.
    now rewrite !(Permutation_length (order_by_perm _)). }
  destruct (select_history (db w) (clock w) asin days) as [|f r] eqn:E; [discriminate|].
  destruct (select_history (db w) (clock w) asin days') as [|f' r'] eqn:E';
    [cbn in Hlen'; lia|].
  intros [= <-]. eexists. split; [reflexivity|].
  cbn [price_history lowest_price highest_price].
  split.
  { intros e He. change (In e (map entry_of (f :: r))) in He.
    apply in_map_iff in He as (x & <- & Hx).
    change (In (entry_of x) (map entry_of (f' :: r'))).
    apply in_map. now apply Hincl'. }
  split.
  { change (List.length (map entry_of (f :: r)) <= List.length (map entry_of (f' :: r')))%nat.
    now rewrite !length_map. }
  destruct (py_min_is_min (row_price f) (map row_price r)) as [Hmin _].
  destruct (py_max_is_max (row_price f) (map row_price r)) as [Hmax _].
  change (row_price f :: map row_price r) with (map row_price (f :: r)) in Hmin, Hmax.
  apply in_map_iff in Hmin as (x & Hx & Hxin).
  apply in_map_iff in Hmax as (y & Hy & Hyin).
  split.
  - rewrite <- Hx.
    apply (py_min_is_min (row_price f') (map row_price r')).
    change (row_price f' :: map row_price r') with (map row_price (f' :: r')).
    apply in_map. now apply Hincl'.
  - rewrite <- Hy.
    apply (py_max_is_max (row_price f') (map row_price r')).
    change (row_price f' :: map row_price r') with (map row_price (f' :: r')).
    apply in_map. now apply Hincl'.
Qed.

Lemma wider_window_returns_more_witness :
  30 <= 60 /\
  window_representable (clock sample_world) 60 /\
  exists h h' : PriceHistoryResponse,
    fst (get_price_history_from_db "B00TEST" 30 sample_world) = Ok (Some h) /\
    fst (get_price_history_from_db "B00TEST" 60 sample_world) = Ok (Some h') /\
    (List.length (price_history h) <= List.length (price_history h'))%nat.
Proof.
  assert (H : 30 <= 60) by lia.
  assert (Hrep : window_representable (clock sample_world) 60)
    by (unfold window_representable, calendar_start, calendar_end; cbn; lia).
  split; [exact H|]. split; [exact Hrep|].
  destruct (wider_window_returns_more "B00TEST" 30 60 sample_world _ H Hrep eq_refl)
    as (h' & Hq & _ & Hlen & _).
  eexists; exists h'. split; [reflexivity|]. split; [exact Hq|exact Hlen].
Defined.

(** X14.  The rows of the store stay in the order of their time stamps,
    and none is stamped later than the clock: every request handler keeps
    this, starting from the empty store. *)
Theorem handle_keeps_chronological (req : Request) (w : World) :
  chronological w -> chronological (snd (handle req w)).
Proof.
  intros H. destruct req as [|asin|asin days|category min_discount limit|].
  - exact H.
  - destruct (scrape_amazon_price_returns asin w)
      as (o & w1 & gets & Hrun & _ & _ & Hdb & Hclk & _).
    unfold handle, fmap. unfold bind at 1.
    rewrite (get_current_price_unfold asin w w1 o Hrun). cbn [ret snd].
    now apply (chronological_appended w w1 o).
  - unfold handle, fmap. unfold bind at 1. rewrite get_price_history_unfold.
    destruct (select_history (db w) (clock w) asin days) as [|first rest].
    + destruct (scrape_amazon_price_returns asin (logged w (EvSelect asin days)))
        as (o & w1 & gets & Hrun & _ & _ & Hdb & Hclk & _).
      rewrite Hrun. cbn [ret snd].
      now apply (chronological_appended w w1 o).
    + exact H.
  - exact H.
  - exact H.
Qed.

Lemma handle_keeps_chronological_witness :
  chronological sample_world /\
  chronological (snd (handle (GetPrice "B00TEST") sample_world)).
Proof.
  assert (H : chronological sample_world).
  { split.
    - repeat constructor; cbn; lia.
    - repeat constructor; cbn; lia. }
  split; [exact H|].
  exact (handle_keeps_chronological (GetPrice "B00TEST") sample_world H).
Defined.

(** ** Request headers *)

(** X15.  The headers of a request, whatever the random draw: the user
    agent is one of the three of the pool; the language preference sent is
    the one set by the extractor, which replaces the one of
    [get_random_headers]; there are nine headers, the six of
    [get_random_headers] in their order followed by the three new ones; and
    the draw changes nothing but the user agent. *)
Theorem request_headers_fixed_but_agent (r : nat) :
  getitem "User-Agent" (request_headers r) = Some (random_choice r user_agents) /\
  In (random_choice r user_agents) user_agents /\
  getitem "Accept-Language" (get_random_headers r) = Some "en-US,en;q=0.9" /\
  getitem "Accept-Language" (request_headers r) = Some "en-US,en;q=0.5" /\
  map fst (request_headers r)
  = [ "User-Agent"; "Accept-Language"; "Accept-Encoding"; "DNT"; "Connection";
      "Upgrade-Insecure-Requests"; "Accept"; "Cache-Control"; "Pragma" ] /\
  (forall r' k, k <> "User-Agent" ->
                getitem k (request_headers r') = getitem k (request_headers r)).
Proof.
  split; [reflexivity|].
  split; [unfold random_choice; apply nth_In, Nat.mod_upper_bound; discriminate|].
  split; [reflexivity|]. split; [reflexivity|]. split; [reflexivity|].
  intros r' k Hk. apply String.eqb_neq in Hk.
  change (request_headers r')
    with (("User-Agent", random_choice r' user_agents) :: tl (request_headers r)).
  change (request_headers r)
    with (("User-Agent", random_choice r user_agents) :: tl (request_headers r)) at 2.
  cbn [getitem]. now rewrite Hk.
Qed.

Lemma request_headers_fixed_but_agent_witness :
  "Accept" <> "User-Agent" /\
  getitem "Accept" (request_headers 7) = getitem "Accept" (request_headers 0).
Proof.
  assert (H : "Accept" <> "User-Agent") by discriminate.
  split; [exact H|].
  exact (proj2 (proj2 (proj2 (proj2 (proj2 (request_headers_fixed_but_agent 0)))))
           7%nat "Accept" H).
Defined.
